(** * Statement coercion and ratio computation of edgartools, verified

    A shallow embedding of
      - [src/Rav/tickerinput.py]: [ensure_dataframe] and [_normalize],
      - [src/1Financialstatements.py]: [normalize_statement],
      - [src/edgar/xbrl/analysis/financial_ratio_analyzer.py]:
        [FinancialRatioAnalyzer].

    Python values are an inductive type, exceptions are the [Raise] branch of
    [outcome], pandas frames are records of column labels and keyed rows, and
    the frames the analyzer owns live in a store of references, so that the
    in-place [set_index] of the constructor is a store update. *)

From Stdlib Require Import ZArith Ascii String PrimFloat SpecFloat FloatOps.
From stdpp Require Import gmap strings list sorting pretty.

Set Warnings "-register-all".

(** ** Exceptions and results *)

(** The classes of [Exception] the modelled code raises, catches or lets
    through; [OtherError] stands for any further class of [Exception], not
    derived from the four above, that foreign code may raise. Signals outside
    [Exception] (KeyboardInterrupt, SystemExit) are not modelled. *)
Inductive exn :=
| TypeError (msg : string)
| ValueError (msg : string)
| KeyError (key : string)
| OverflowError (msg : string)
| OtherError (cls msg : string).

Inductive outcome (A : Type) :=
| Ok (a : A)
| Raise (e : exn).
Arguments Ok {A} a.
Arguments Raise {A} e.

#[global] Instance outcome_ret : MRet outcome := λ A a, Ok a.
#[global] Instance outcome_bind : MBind outcome := λ A B f r,
  match r with Ok a => f a | Raise e => Raise e end.
#[global] Instance outcome_fmap : FMap outcome := λ A B f r,
  match r with Ok a => Ok (f a) | Raise e => Raise e end.

(** ** Text *)

Definition nl : string := String "010"%char EmptyString.

(** [repr] of a [str] free of quotes, backslashes and control characters,
    which is what the column labels and period texts of the tables are. *)
Definition repr_str (s : string) : string := "'" +:+ s +:+ "'".

(** [repr] of a list of such strings: ['a', 'b']. *)
Definition repr_list (l : list string) : string :=
  "[" +:+ String.concat ", " (repr_str <$> l) +:+ "]".

Fixpoint is_prefix (p s : string) : bool :=
  match p, s with
  | EmptyString, _ => true
  | String a p', String b s' => if Ascii.eqb a b then is_prefix p' s' else false
  | String _ _, EmptyString => false
  end.

(** [sub in s] of Python, on texts. *)
Fixpoint contains (sub s : string) : bool :=
  is_prefix sub s ||
  match s with
  | EmptyString => false
  | String _ s' => contains sub s'
  end.

(** ** Python scalars, as cells and row keys of a table *)

Inductive pyval :=
| PNone
| PBool (b : bool)
| PInt (z : Z)
| PFloat (f : float)
| PStr (s : string).

(** [float(z)] for an [int]: the nearest binary64, ties to even; an [int]
    that rounds beyond the largest finite float raises [OverflowError]. *)
Definition float_of_int (z : Z) : outcome float :=
  match binary_normalize 53 1024 z 0 false with
  | S754_infinity _ => Raise (OverflowError "int too large to convert to float")
  | sf => Ok (SF2Prim sf)
  end.


(** ** Tables

    A pandas [DataFrame]: its column labels, and its rows in order, each with
    its row key (an entry of [df.index]) and its cells in column order.
    Labels and keys may repeat, as pandas allows. *)
Record DataFrame := mkDataFrame {
  columns : list string;
  body : list (pyval * list pyval)
}.

(** [df.index] *)
Definition index (df : DataFrame) : list pyval := (body df).*1.

(** Rows as wide as the header. *)
Definition well_formed (df : DataFrame) : Prop :=
  Forall (λ e, length e.2 = length (columns df)) (body df).

(** The places of a label in a header. *)
Fixpoint positions_from (i : nat) (label : string) (cols : list string) : list nat :=
  match cols with
  | [] => []
  | c :: cs =>
      (if String.eqb c label then [i] else []) ++ positions_from (S i) label cs
  end.
Definition positions : string → list string → list nat := positions_from 0.

(** [label in df.columns] *)
Definition has_column (df : DataFrame) (label : string) : bool :=
  bool_decide (label ∈ columns df).

(** [df.set_index(label)]: the column becomes the row keys and leaves the
    header. An absent label raises [KeyError]; a label carried by several
    columns selects a frame, which is no index data. *)
Definition set_index (df : DataFrame) (label : string) : outcome DataFrame :=
  match positions label (columns df) with
  | [] => Raise (KeyError ("None of [" +:+ repr_str label +:+ "] are in the columns"))
  | [j] =>
      Ok {| columns := delete j (columns df);
            body := (λ e, (default PNone (e.2 !! j), delete j e.2)) <$> body df |}
  | _ => Raise (ValueError "Index data must be 1-dimensional")
  end.

(** A [str] key equals a row key only when that key is the same [str]. *)
Definition is_key (key : string) (v : pyval) : bool :=
  match v with
  | PStr s => String.eqb s key
  | _ => false
  end.

(** What [df.loc[key]] selects: one row as a Series, or the frame of all the
    rows under a repeated key. *)
Inductive selection :=
| Row (cells : list pyval)
| Rows (sub : list (list pyval)).

(** [df.loc[key]] for a [str] key; no row under the key raises [KeyError]. *)
Definition loc (df : DataFrame) (key : string) : outcome selection :=
  match filter (λ e, is_key key e.1) (body df) with
  | [] => Raise (KeyError (repr_str key))
  | [e] => Ok (Row e.2)
  | es => Ok (Rows (es.*2))
  end.

(** What [row[label]] yields on a selection. *)
Inductive item :=
| Scalar (v : pyval)
| Series (vs : list pyval)
| SubFrame.

(** [row[label]], on the header [cols] of the frame the row came from. *)
Definition getitem (cols : list string) (row : selection) (label : string) : outcome item :=
  match positions label cols, row with
  | [], _ => Raise (KeyError (repr_str label))
  | [j], Row cells =>
      match cells !! j with
      | Some v => Ok (Scalar v)
      | None => Raise (KeyError (repr_str label))
      end
  | js, Row cells => Ok (Series (omap (λ j, cells !! j) js))
  | [j], Rows sub => Ok (Series (omap (λ cells, cells !! j) sub))
  | _, Rows _ => Ok SubFrame
  end.

(** ** Opaque statement values

    What the statement extractor may hand over: a table, [None], a
    list/dict/tuple, or any other object. The foreign code behind a value is
    represented by what it does when the coercion touches it:
    - a list, dict or tuple carries what [pd.DataFrame] makes of it;
    - an object carries its class name, the attributes [getattr] finds on it,
      what calling it with no argument does ([None] when it is not callable),
      and what [pd.json_normalize] makes of its instance [__dict__] ([None]
      when it has none or an empty one).
    A method is an attribute whose value is callable. *)
Inductive container := PyList | PyDict | PyTuple.

Inductive pyobj :=
| ODataFrame (df : DataFrame)
| ONone
| OContainer (kind : container) (built : outcome DataFrame)
| OObject (cls : string) (attrs : list (string * pyobj))
          (call : option (outcome pyobj)) (vars : option (outcome DataFrame)).

(** The text of [type(obj)] in an f-string. *)
Definition type_name (obj : pyobj) : string :=
  match obj with
  | ODataFrame _ => "pandas.core.frame.DataFrame"
  | ONone => "NoneType"
  | OContainer PyList _ => "list"
  | OContainer PyDict _ => "dict"
  | OContainer PyTuple _ => "tuple"
  | OObject cls _ _ _ => cls
  end.
Definition type_repr (obj : pyobj) : string := "<class '" +:+ type_name obj +:+ "'>".

(** The name of the class as the messages of Python print it,
    [type(obj).__name__], for the builtins and for classes defined in
    Python, pandas' among them: the class name without the modules and
    classes it is defined in. *)
Fixpoint unqualified (s : string) : string :=
  match s with
  | EmptyString => EmptyString
  | String c rest =>
      if contains "." rest then unqualified rest
      else if Ascii.eqb c "."%char then rest else s
  end.

Definition class_name (obj : pyobj) : string := unqualified (type_name obj).

(** A bound method that returns [v] when called. *)
Definition bound_method (v : pyobj) : pyobj := OObject "method" [] (Some (Ok v)) None.

(** [df[label]] for a label that several columns carry, at the places [js]:
    the frame of those columns. *)
Definition select_columns (df : DataFrame) (js : list nat) : DataFrame :=
  {| columns := omap (λ j, columns df !! j) js;
     body := (λ e, (e.1, (λ j, default PNone (e.2 !! j)) <$> js)) <$> body df |}.

(** [df[label]] for a label that one column carries, at the place [j]: a
    pandas [Series]. Of a Series the model keeps its class, that it is not
    callable, and [to_frame], the method a coercion finds first on it; the
    labels of its index, which pandas answers as attributes too, are left
    out: they hold cells, which are neither callable nor tables nor
    records. *)
Definition column_series (df : DataFrame) (j : nat) : pyobj :=
  OObject "pandas.core.series.Series"
    [("to_frame", bound_method (ODataFrame (select_columns df [j])))] None None.

(** [getattr(obj, name, None)] for the names the programs look up on a
    value. On an object it is the first binding of the name. On a table,
    pandas answers a name that is none of [DataFrame]'s own with the columns
    so labelled, [df[name]]: a Series for one column, a frame for several;
    of the names looked up here [DataFrame] defines [items] alone, a bound
    method that returns a generator. [None] and the builtin containers have
    none of the names but [dict.items], a bound method, neither table nor
    records, over which the attribute loop passes as over an absent name. *)
Definition getattr (obj : pyobj) (name : string) : option pyobj :=
  match obj with
  | OObject _ attrs _ _ => snd <$> find (λ b, String.eqb b.1 name) attrs
  | ODataFrame df =>
      if String.eqb name "items"
      then Some (bound_method (OObject "generator" [] None None))
      else
        match positions name (columns df) with
        | [] => None
        | [j] => Some (column_series df j)
        | js => Some (ODataFrame (select_columns df js))
        end
  | _ => None
  end.

(** What [obj()] does when [callable(obj)]. *)
Definition call_of (obj : pyobj) : option (outcome pyobj) :=
  match obj with
  | OObject _ _ call _ => call
  | _ => None
  end.

(** [obj.__dict__] when it is a non-empty dict, as what [pd.json_normalize]
    makes of it. *)
Definition vars_of (obj : pyobj) : option (outcome DataFrame) :=
  match obj with
  | OObject _ _ _ vars => vars
  | _ => None
  end.

(** *** [ensure_dataframe] (tickerinput.py) *)

Definition conversion_methods : list string :=
  ["to_frame"; "to_dataframe"; "to_df"; "to_pandas"; "as_dataframe"; "as_df"; "as_pandas"].

Definition tabular_attrs : list string :=
  ["df"; "data"; "dataframe"; "table"; "rows"; "items"; "statements"].

(** One turn of the loop over method names; [Some df] is [return df]. The
    call and what follows it sit in [try ... except Exception: pass]. *)
Definition try_method (obj : pyobj) (meth : string) : option DataFrame :=
  match getattr obj meth with
  | None => None
  | Some fn =>
      match call_of fn with
      | None => None
      | Some called =>
          let attempt : outcome (option DataFrame) :=
            res ← called;
            match res with
            | ODataFrame df => Ok (Some df)
            | OContainer _ built => Some <$> built
            | _ => Ok None
            end in
          match attempt with
          | Ok found => found
          | Raise _ => None
          end
      end
  end.

Fixpoint probe_methods (obj : pyobj) (meths : list string) : option DataFrame :=
  match meths with
  | [] => None
  | meth :: rest =>
      match try_method obj meth with
      | Some df => Some df
      | None => probe_methods obj rest
      end
  end.

(** One turn of the loop over attribute names; here [pd.DataFrame(val)] is
    not guarded. *)
Definition try_attr (obj : pyobj) (attr : string) : outcome (option DataFrame) :=
  match getattr obj attr with
  | Some (ODataFrame df) => Ok (Some df)
  | Some (OContainer _ built) => Some <$> built
  | _ => Ok None
  end.

Fixpoint probe_attrs (obj : pyobj) (attrs : list string) : outcome (option DataFrame) :=
  match attrs with
  | [] => Ok None
  | attr :: rest =>
      found ← try_attr obj attr;
      match found with
      | Some df => Ok (Some df)
      | None => probe_attrs obj rest
      end
  end.

(** The message of the closing [raise TypeError(...)]. *)
Definition diagnostic (name : string) (obj : pyobj) : string :=
  name +:+ " is a " +:+ type_repr obj +:+
    " and could not be converted automatically to DataFrame." +:+ nl +:+
  "Inspect with: print(type(" +:+ name +:+ ")); print(dir(" +:+ name +:+
    ")); print(repr(" +:+ name +:+ ")[:400])" +:+ nl +:+
  "Common fix: call the object's conversion method (e.g. " +:+ name +:+
    ".to_frame()) before passing it here.".

Definition ensure_dataframe (obj : pyobj) (name : string) : outcome DataFrame :=
  match obj with
  | ODataFrame df => Ok df
  | ONone => Raise (TypeError (name +:+ " is None"))
  | _ =>
      match probe_methods obj conversion_methods with
      | Some df => Ok df
      | None =>
          found ← probe_attrs obj tabular_attrs;
          match found with
          | Some df => Ok df
          | None =>
              match obj with
              | OContainer _ (Ok df) => Ok df
              | _ =>
                  match vars_of obj with
                  | Some (Ok df) => Ok df
                  | _ => Raise (TypeError (diagnostic name obj))
                  end
              end
          end
      end
  end.

(** *** [normalize_statement] (1Financialstatements.py) *)

Definition statement_methods : list string :=
  ["get_dataframe"; "to_pandas"; "to_dataframe"].

(** [obj()] *)
Definition invoke (obj : pyobj) : outcome pyobj :=
  match call_of obj with
  | Some called => called
  | None => Raise (TypeError ("'" +:+ class_name obj +:+ "' object is not callable"))
  end.

(** The loop over [statement_methods]; [Some r] is [return getattr(stmt, attr)()]. *)
Fixpoint probe_statement (stmt : pyobj) (names : list string) : option (outcome pyobj) :=
  match names with
  | [] => None
  | attr :: rest =>
      match getattr stmt attr with
      | Some fn => Some (invoke fn)
      | None => probe_statement stmt rest
      end
  end.

Definition normalize_statement (stmt : pyobj) : outcome pyobj :=
  stmt ← (match call_of stmt with
          | Some called => called
          | None => Ok stmt
          end);
  match probe_statement stmt statement_methods with
  | Some returned => returned
  | None =>
      match stmt with
      | ODataFrame _ => Ok stmt
      | _ => Raise (TypeError ("Unexpected statement type: " +:+ type_repr stmt))
      end
  end.

(** *** Shapes of values the coercion properties speak of *)

(** The probed method hands over no table: it is absent, not callable,
    raises, returns neither table nor records, or returns records that
    [pd.DataFrame] rejects. *)
Definition method_yields_nothing (obj : pyobj) (meth : string) : Prop :=
  match getattr obj meth with
  | None => True
  | Some fn =>
      match call_of fn with
      | None | Some (Raise _) => True
      | Some (Ok (ODataFrame _)) => False
      | Some (Ok (OContainer _ built)) => ∃ e, built = Raise e
      | Some (Ok _) => True
      end
  end.

(** The method is there, is callable and raises when invoked. *)
Definition raises_when_invoked (obj : pyobj) (meth : string) : Prop :=
  ∃ fn e, getattr obj meth = Some fn ∧ call_of fn = Some (Raise e).

(** The method is there, is callable and returns the table [df]. *)
Definition returns_table (obj : pyobj) (meth : string) (df : DataFrame) : Prop :=
  ∃ fn, getattr obj meth = Some fn ∧ call_of fn = Some (Ok (ODataFrame df)).

(** The attribute is absent or holds neither table nor records. *)
Definition attr_holds_nothing (obj : pyobj) (attr : string) : Prop :=
  match getattr obj attr with
  | Some (ODataFrame _) | Some (OContainer _ _) => False
  | _ => True
  end.

(** Not a list, dict or tuple that [pd.DataFrame] accepts. *)
Definition not_constructible (obj : pyobj) : Prop :=
  match obj with
  | OContainer _ (Ok _) => False
  | _ => True
  end.

(** No instance [__dict__] that [pd.json_normalize] flattens. *)
Definition no_field_bag (obj : pyobj) : Prop :=
  match vars_of obj with
  | Some (Ok _) => False
  | _ => True
  end.

(** The same object with every binding of one attribute name taken away. *)
Definition without_attr (name : string) (obj : pyobj) : pyobj :=
  match obj with
  | OObject cls attrs call vars =>
      OObject cls (filter (λ b, negb (String.eqb b.1 name)) attrs) call vars
  | _ => obj
  end.

(** ** The store of frames

    The analyzer keeps references to frames and changes a frame in place, so
    frames it works on live in a store; a reference is a position in it. A
    computation takes the store and leaves a result or an exception together
    with the store as it then is. Python references are always live; a
    reference outside the store raises, for totality. *)
Abbreviation ref := nat (only parsing).
Abbreviation store := (list DataFrame) (only parsing).
Definition M (A : Type) : Type := store → outcome A * store.

#[global] Instance M_ret : MRet M := λ A a h, (Ok a, h).
#[global] Instance M_bind : MBind M := λ A B f m h,
  match m h with
  | (Ok a, h') => f a h'
  | (Raise e, h') => (Raise e, h')
  end.

Definition lift {A} (r : outcome A) : M A := λ h, (r, h).

Definition dangling {A} : outcome A := Raise (OtherError "ReferenceError" "no such frame").

(** Reading the frame behind a reference. *)
Definition deref (r : ref) : M DataFrame := λ h,
  match h !! r with
  | Some df => (Ok df, h)
  | None => (dangling, h)
  end.

(** [df.copy()]: a new frame with the same labels, keys and cells. *)
Definition copy (r : ref) : M ref := λ h,
  match h !! r with
  | Some df => (Ok (length h), h ++ [df])
  | None => (dangling, h)
  end.

(** [df.set_index(label, inplace=True)] *)
Definition set_index_inplace (r : ref) (label : string) : M unit := λ h,
  match h !! r with
  | Some df =>
      match set_index df label with
      | Ok df' => (Ok (), <[r:=df']> h)
      | Raise e => (Raise e, h)
      end
  | None => (dangling, h)
  end.

(** [for x in xs: body(x)] *)
Fixpoint for_each {A} (body : A → M unit) (xs : list A) : M unit :=
  match xs with
  | [] => mret ()
  | x :: rest => _ ← body x; for_each body rest
  end.

(** *** What a computation leaves of the frames that were there before

    [h0] is the store as the caller had it: its frames are the caller's, and
    every reference the caller holds is a position of [h0]. *)
Definition caller_frames_kept (h0 h : store) : Prop :=
  length h0 ≤ length h ∧ ∀ l, l < length h0 → h !! l = h0 !! l.

(** From a store that kept the caller's frames the computation reaches one
    that kept them too, and a value it returns satisfies [post]. *)
Definition keeps_caller_frames {A} (h0 : store) (m : M A) (post : A → Prop) : Prop :=
  ∀ h, caller_frames_kept h0 h →
       caller_frames_kept h0 (m h).2 ∧ ∀ a, (m h).1 = Ok a → post a.

(** From any store satisfying [pre] the computation returns, with a value
    and a store satisfying [post]. *)
Definition returns_from {A} (pre : store → Prop) (m : M A)
    (post : A → store → Prop) : Prop :=
  ∀ h, pre h → ∃ a h', m h = (Ok a, h') ∧ post a h'.

(** At most one column is labelled "period", so that [set_index] finds index
    data under the label. *)
Definition one_period_column (df : DataFrame) : Prop :=
  length (positions "period" (columns df)) ≤ 1.

(** Every frame of the store has at most one period column, and the
    references below [n] are live. *)
Definition ready (n : nat) (h : store) : Prop :=
  Forall one_period_column h ∧ n ≤ length h.

(** ** The ratio analyzer (financial_ratio_analyzer.py) *)

Record RatioResult := mkRatioResult {
  name : string;
  period : string;
  result : float
}.

Record FinancialRatioAnalyzer := mkAnalyzer {
  balance_sheet : ref;
  income_stmt : ref;
  cash_flow : option ref;
  periods : list string
}.

(** [except (KeyError, TypeError, ValueError)] *)
Definition caught (e : exn) : bool :=
  match e with
  | KeyError _ | TypeError _ | ValueError _ => true
  | OverflowError _ | OtherError _ _ => false
  end.

(** [missing = [c for c in cols if c not in df.columns]]; raise when any. *)
Definition missing_columns (df : DataFrame) (cols : list string) : list string :=
  filter (λ c, negb (has_column df c)) cols.

Definition _require_columns (df : DataFrame) (cols : list string) (df_name : string)
  : outcome unit :=
  match missing_columns df cols with
  | [] => Ok ()
  | missing => Raise (ValueError (df_name +:+ " missing columns: " +:+ repr_list missing))
  end.

(** [for period in self.periods: ...], where a turn either goes on to the
    next period ([None]), appends a result, or raises. *)
Fixpoint for_periods (turn : string → outcome (option RatioResult))
    (ps : list string) (results : list RatioResult) : outcome (list RatioResult) :=
  match ps with
  | [] => Ok results
  | p :: rest =>
      appended ← turn p;
      match appended with
      | None => for_periods turn rest results
      | Some r => for_periods turn rest (results ++ [r])
      end
  end.

Section Runtime.

(** The two conversions of the Python runtime between text and floats:
    [float(s)] for a [str] ([None] when it raises [ValueError]) and
    [str(f)] for a [float]. The development holds for any such pair. *)
Variable float_of_str : string → option float.
Variable str_of_float : float → string.

(** [str(v)] *)
Definition py_str (v : pyval) : string :=
  match v with
  | PNone => "None"
  | PBool true => "True"
  | PBool false => "False"
  | PInt z => pretty z
  | PFloat f => str_of_float f
  | PStr s => s
  end.

(** [float(v)] *)
Definition py_float (v : pyval) : outcome float :=
  match v with
  | PNone =>
      Raise (TypeError "float() argument must be a string or a real number, not 'NoneType'")
  | PBool b => Ok (if b then one else zero)
  | PInt z => float_of_int z
  | PFloat f => Ok f
  | PStr s =>
      match float_of_str s with
      | Some f => Ok f
      | None => Raise (ValueError ("could not convert string to float: " +:+ repr_str s))
      end
  end.

(** [float(row[label])]: a Series of one element converts as its element,
    any other Series or a frame raises [TypeError]. *)
Definition float_of_item (it : item) : outcome float :=
  match it with
  | Scalar v => py_float v
  | Series [v] => py_float v
  | Series _ => Raise (TypeError "cannot convert the series to <class 'float'>")
  | SubFrame =>
      Raise (TypeError "float() argument must be a string or a real number, not 'DataFrame'")
  end.

(** [df.index.astype(str)] *)
Definition astype_str (keys : list pyval) : list string := py_str <$> keys.

(** [period in df.index.astype(str)] *)
Definition in_index (p : string) (df : DataFrame) : bool :=
  bool_decide (p ∈ astype_str (index df)).

(** [_normalize] of [fetch_and_prepare_statements] (tickerinput.py). *)
Definition _normalize (df : DataFrame) : outcome DataFrame :=
  df ← (if has_column df "period" then set_index df "period" else Ok df);
  Ok {| columns := columns df;
        body := (λ e, (PStr (py_str e.1), e.2)) <$> body df |}.

(** The loop of [__init__] over the frames it copied. *)
Definition promote_period (r : ref) : M unit :=
  df ← deref r;
  if has_column df "period" then set_index_inplace r "period" else mret ().

(** [sorted(set(bs.index.astype(str)) & set(is.index.astype(str)))]. Python
    orders [str] by code point, [String.le] orders texts by byte, and on
    UTF-8 the two orders are one. *)
Definition common_periods (bs is_ : DataFrame) : list string :=
  let bs_periods : gset string := list_to_set (astype_str (index bs)) in
  let is_periods : gset string := list_to_set (astype_str (index is_)) in
  merge_sort String.le (elements (bs_periods ∩ is_periods)).

Definition __init__ (balance_sheet_df income_stmt_df : ref)
    (cash_flow_df : option ref) (periods_arg : option (list string))
  : M FinancialRatioAnalyzer :=
  bs ← copy balance_sheet_df;
  is_ ← copy income_stmt_df;
  cf ← match cash_flow_df with
       | None => mret None
       | Some r => c ← copy r; mret (Some c)
       end;
  _ ← for_each promote_period (bs :: is_ :: option_list cf);
  ps ← match periods_arg with
       | Some given => mret given
       | None =>
           bsf ← deref bs;
           isf ← deref is_;
           mret (common_periods bsf isf)
       end;
  mret {| balance_sheet := bs; income_stmt := is_; cash_flow := cf; periods := ps |}.

(** One turn of the loop of [calculate_current_ratio]. *)
Definition current_ratio_turn (bs : DataFrame) (p : string)
  : outcome (option RatioResult) :=
  if negb (in_index p bs) then Ok None
  else
    row ← loc bs p;
    let tried : outcome (float * float) :=
      current_assets ← getitem (columns bs) row "current_assets" ≫= float_of_item;
      current_liabilities ← getitem (columns bs) row "current_liabilities" ≫= float_of_item;
      Ok (current_assets, current_liabilities) in
    match tried with
    | Raise e => if caught e then Ok None else Raise e
    | Ok (current_assets, current_liabilities) =>
        let ratio_val :=
          if (current_liabilities =? 0)%float then infinity
          else (current_assets / current_liabilities)%float in
        Ok (Some {| name := "Current Ratio"; period := p; result := ratio_val |})
    end.

Definition calculate_current_ratio (self : FinancialRatioAnalyzer)
  : M (list RatioResult) :=
  bs ← deref (balance_sheet self);
  _ ← lift (_require_columns bs ["current_assets"; "current_liabilities"] "balance_sheet");
  lift (for_periods (current_ratio_turn bs) (periods self) []).

(** One turn of the loop of [calculate_return_on_assets]. *)
Definition return_on_assets_turn (is_ bs : DataFrame) (p : string)
  : outcome (option RatioResult) :=
  if negb (in_index p is_) || negb (in_index p bs) then Ok None
  else
    ni_row ← loc is_ p;
    bs_row ← loc bs p;
    let tried : outcome (float * float) :=
      net_income ← getitem (columns is_) ni_row "net_income" ≫= float_of_item;
      total_assets ← getitem (columns bs) bs_row "total_assets" ≫= float_of_item;
      Ok (net_income, total_assets) in
    match tried with
    | Raise e => if caught e then Ok None else Raise e
    | Ok (net_income, total_assets) =>
        let roa :=
          if (total_assets =? 0)%float then infinity
          else (net_income / total_assets)%float in
        Ok (Some {| name := "Return on Assets"; period := p; result := roa |})
    end.

Definition calculate_return_on_assets (self : FinancialRatioAnalyzer)
  : M (list RatioResult) :=
  is_ ← deref (income_stmt self);
  _ ← lift (_require_columns is_ ["net_income"] "income_stmt");
  bs ← deref (balance_sheet self);
  _ ← lift (_require_columns bs ["total_assets"] "balance_sheet");
  lift (for_periods (return_on_assets_turn is_ bs) (periods self) []).

(** ** The prompts (tickerinput.py)

    The console is the lines waiting on standard input and the pieces of
    text written to standard output so far. [input(prompt)] writes the
    prompt and takes the next line, without its newline; at the end of the
    input it raises [EOFError]. *)
Record console := mkConsole {
  stdin : list string;
  stdout : list string
}.

Definition EOFError : exn := OtherError "EOFError" "EOF when reading a line".

Section Console.

(** [str.strip], [str.lower] and [str.upper] of the Python runtime, which
    follow Unicode; the development holds for any three functions. *)
Variable strip : string → string.
Variable lower : string → string.
Variable upper : string → string.

Definition ticker_prompt : string := "Enter ticker (e.g. AAPL): ".
Definition ticker_complaint : string := "Ticker cannot be empty. Try again." +:+ nl.

(** [while True: t = input(...).strip().upper(); if t: return t; print(...)];
    each turn of the loop takes one line. *)
Fixpoint _prompt_ticker_from (lines : list string) (written : list string)
  : outcome string * console :=
  match lines with
  | [] => (Raise EOFError, mkConsole [] (written ++ [ticker_prompt]))
  | line :: rest =>
      let t := upper (strip line) in
      if bool_decide (t = EmptyString)
      then _prompt_ticker_from rest (written ++ [ticker_prompt; ticker_complaint])
      else (Ok t, mkConsole rest (written ++ [ticker_prompt]))
  end.

Definition _prompt_ticker (c : console) : outcome string * console :=
  _prompt_ticker_from (stdin c) (stdout c).

Definition freq_prompt : string :=
  "Choose filing type — k = annual (10-K), q = quarterly (10-Q) [k/q]: ".
Definition freq_complaint : string := "Invalid choice. Enter 'k' or 'q'." +:+ nl.

Definition annual_spellings : list string := ["k"; "10-k"; "10k"; "annual"].
Definition quarterly_spellings : list string := ["q"; "10-q"; "10q"; "quarterly"].

(** [while True: s = input(...).strip().lower(); ...] *)
Fixpoint _prompt_freq_from (lines : list string) (written : list string)
  : outcome string * console :=
  match lines with
  | [] => (Raise EOFError, mkConsole [] (written ++ [freq_prompt]))
  | line :: rest =>
      let s := lower (strip line) in
      if bool_decide (s ∈ annual_spellings)
      then (Ok "10-K", mkConsole rest (written ++ [freq_prompt]))
      else if bool_decide (s ∈ quarterly_spellings)
      then (Ok "10-Q", mkConsole rest (written ++ [freq_prompt]))
      else _prompt_freq_from rest (written ++ [freq_prompt; freq_complaint])
  end.

Definition _prompt_freq (c : console) : outcome string * console :=
  _prompt_freq_from (stdin c) (stdout c).

End Console.

(** ** Fetching and preparing the statements (tickerinput.py) *)

Section Provider.

(** [Company(ticker).latest(filing_type)] of the filings provider: the
    filing, [None], or what either step raised. *)
Variable latest : string → string → outcome pyobj.

Definition AttributeError (obj : pyobj) (name : string) : exn :=
  OtherError "AttributeError"
    ("'" +:+ class_name obj +:+ "' object has no attribute " +:+ repr_str name).

(** [obj.name] *)
Definition get_attribute (obj : pyobj) (name : string) : outcome pyobj :=
  match getattr obj name with
  | Some v => Ok v
  | None => Raise (AttributeError obj name)
  end.

(** [obj.name()] *)
Definition call_method (obj : pyobj) (name : string) : outcome pyobj :=
  fn ← get_attribute obj name; invoke fn.

(** The cash flow of the statements: [cashflow_statement()], and when that
    raises, [cash_flow()] if there is such a callable attribute, else [None]. *)
Definition cash_flow_of (statements : pyobj) : outcome pyobj :=
  match call_method statements "cashflow_statement" with
  | Ok cf_obj => Ok cf_obj
  | Raise _ =>
      match getattr statements "cash_flow" with
      | Some fn =>
          match call_of fn with
          | Some called => called
          | None => Ok ONone
          end
      | None => Ok ONone
      end
  end.

Definition no_filing (ticker filing_type : string) : exn :=
  OtherError "RuntimeError"
    ("No latest " +:+ filing_type +:+ " filing found for " +:+ ticker).

Definition fetch_and_prepare_statements (ticker filing_type : string)
    (prefer_edgar : bool) : outcome (DataFrame * DataFrame * option DataFrame) :=
  filing ← latest ticker filing_type;
  match filing with
  | ONone => Raise (no_filing ticker filing_type)
  | _ =>
      xb ← call_method filing "xbrl";
      statements ← get_attribute xb "statements";
      bs_obj ← call_method statements "balance_sheet";
      is_obj ← call_method statements "income_statement";
      cf_obj ← cash_flow_of statements;
      bs_df ← ensure_dataframe bs_obj "balance_sheet";
      is_df ← ensure_dataframe is_obj "income_statement";
      cf_df ← match cf_obj with
              | ONone => Ok None
              | _ => Some <$> ensure_dataframe cf_obj "cash_flow"
              end;
      bs_df ← _normalize bs_df;
      is_df ← _normalize is_df;
      cf_df ← match cf_df with
              | Some df => Some <$> _normalize df
              | None => Ok None
              end;
      Ok (bs_df, is_df, cf_df)
  end.

End Provider.

(** *** Shapes of tables *)

(** Every row key is a text. *)
Definition keyed_by_text (df : DataFrame) : Prop :=
  Forall (λ k, ∃ s, k = PStr s) (index df).

(** What the constructor of the analyzer makes of a frame it copied. *)
Definition promoted (df : DataFrame) : outcome DataFrame :=
  if has_column df "period" then set_index df "period" else Ok df.

(** ** Sample inputs *)

(** The tables of the end-to-end scenario of the specification. *)
Definition quarterly_balance_sheet : DataFrame :=
  {| columns := ["period"; "current_assets"; "current_liabilities"; "total_assets"];
     body := [(PInt 0, [PStr "2023Q1"; PInt 200; PInt 100; PInt 1000]);
              (PInt 1, [PStr "2023Q2"; PInt 150; PInt 0; PInt 900])] |}.

Definition quarterly_income_stmt : DataFrame :=
  {| columns := ["period"; "net_income"];
     body := [(PInt 0, [PStr "2023Q1"; PInt 50]);
              (PInt 1, [PStr "2023Q2"; PInt 45])] |}.

(** The same tables once the period is the row key. *)
Definition keyed_balance_sheet : DataFrame :=
  {| columns := ["current_assets"; "current_liabilities"; "total_assets"];
     body := [(PStr "2023Q1", [PInt 200; PInt 100; PInt 1000]);
              (PStr "2023Q2", [PInt 150; PInt 0; PInt 900])] |}.

Definition keyed_income_stmt : DataFrame :=
  {| columns := ["net_income"];
     body := [(PStr "2023Q1", [PInt 50]); (PStr "2023Q2", [PInt 45])] |}.

(** Tables whose period column holds the fiscal year as an [int]. *)
Definition yearly_balance_sheet : DataFrame :=
  {| columns := ["period"; "current_assets"; "current_liabilities"; "total_assets"];
     body := [(PInt 0, [PInt 2023; PInt 200; PInt 100; PInt 1000])] |}.

Definition yearly_income_stmt : DataFrame :=
  {| columns := ["period"; "net_income"];
     body := [(PInt 0, [PInt 2023; PInt 50])] |}.

(** A balance sheet with a cell holding the [int] 10**400. *)
Definition oversized_balance_sheet : DataFrame :=
  {| columns := ["period"; "current_assets"; "current_liabilities"; "total_assets"];
     body := [(PInt 0, [PStr "2023"; PInt (10 ^ 400); PInt 100; PInt 1000])] |}.

Definition plain_income_stmt : DataFrame :=
  {| columns := ["period"; "net_income"];
     body := [(PInt 0, [PStr "2023"; PInt 50])] |}.

(** Tables that lack [total_assets] and [net_income]. *)
Definition balance_sheet_without_total : DataFrame :=
  {| columns := ["current_assets"; "current_liabilities"];
     body := [(PStr "2023", [PInt 200; PInt 100])] |}.

Definition income_stmt_without_income : DataFrame :=
  {| columns := ["revenue"];
     body := [(PStr "2023", [PInt 50])] |}.

(** A method that raises, and one that returns a table. *)
Definition raising_method : pyobj :=
  OObject "method" [] (Some (Raise (OtherError "RuntimeError" "not available"))) None.

Definition table_method (df : DataFrame) : pyobj :=
  OObject "method" [] (Some (Ok (ODataFrame df))) None.

(** A statement whose [get_dataframe] and [to_frame] raise and whose
    [to_pandas] returns a table ... *)
Definition flaky_statement : pyobj :=
  OObject "edgar.xbrl.statements.Statement"
    [("get_dataframe", raising_method);
     ("to_frame", raising_method);
     ("to_pandas", table_method keyed_income_stmt)]
    None None.

(** ... and an object with nothing the coercions look for. *)
Definition bare_statement : pyobj :=
  OObject "edgar.xbrl.statements.Statement" [] None None.

(** Analyzers over a store of two frames, balance sheet then income
    statement. *)
Definition analyzer_over (ps : list string) : FinancialRatioAnalyzer :=
  {| balance_sheet := 0; income_stmt := 1; cash_flow := None; periods := ps |}.

(** A runtime to run the model with on tables without text cells and
    without float keys: no text reads as a number, every float prints as
    nan. *)
Definition no_float_of_str (s : string) : option float := None.
Definition nan_str_of_float (f : float) : string := "nan".


(** *** Further sample inputs *)

(** A method that returns a given value. *)
Definition value_method (v : pyobj) : pyobj :=
  OObject "method" [] (Some (Ok v)) None.

(** An object whose [df] attribute holds a table, with a field bag too. *)
Definition wrapper_with_table : pyobj :=
  OObject "Wrapper" [("df", ODataFrame keyed_income_stmt)] None
    (Some (Ok keyed_balance_sheet)).

(** An object whose [data] attribute holds a dict of scalars, which
    [pd.DataFrame] rejects, with a field bag too. *)
Definition scalars_rejected : exn :=
  ValueError "If using all scalar values, you must pass an index".

Definition wrapper_with_scalars : pyobj :=
  OObject "Wrapper" [("data", OContainer PyDict (Raise scalars_rejected))] None
    (Some (Ok keyed_balance_sheet)).

(** An object with a field bag only. *)
Definition plain_record : pyobj :=
  OObject "Record" [] None (Some (Ok keyed_income_stmt)).

(** A statement whose [to_pandas] returns [None]. *)
Definition hollow_statement : pyobj :=
  OObject "Statement" [("to_pandas", value_method ONone)] None None.

(** A function that returns a function. *)
Definition returned_function : pyobj := OObject "function" [] (Some (Ok ONone)) None.
Definition function_of_function : pyobj :=
  OObject "function" [] (Some (Ok returned_function)) None.

(** A balance sheet with the period 2023 restated in a second row. *)
Definition restated_balance_sheet : DataFrame :=
  {| columns := ["period"; "current_assets"; "current_liabilities"; "total_assets"];
     body := [(PInt 0, [PStr "2023"; PInt 200; PInt 100; PInt 1000]);
              (PInt 1, [PStr "2023"; PInt 210; PInt 100; PInt 1010])] |}.

Definition restated_keyed_balance_sheet : DataFrame :=
  {| columns := ["current_assets"; "current_liabilities"; "total_assets"];
     body := [(PStr "2023", [PInt 200; PInt 100; PInt 1000]);
              (PStr "2023", [PInt 210; PInt 100; PInt 1010])] |}.

(** The yearly tables as the constructor of the analyzer leaves them. *)
Definition yearly_promoted_balance_sheet : DataFrame :=
  {| columns := ["current_assets"; "current_liabilities"; "total_assets"];
     body := [(PInt 2023, [PInt 200; PInt 100; PInt 1000])] |}.

Definition yearly_promoted_income_stmt : DataFrame :=
  {| columns := ["net_income"];
     body := [(PInt 2023, [PInt 50])] |}.

(** A provider with one filing, for AAPL, whose statements have a balance
    sheet and an income statement and no cash flow of either name. *)
Definition sample_statements : pyobj :=
  OObject "Statements"
    [("balance_sheet", value_method (ODataFrame quarterly_balance_sheet));
     ("income_statement", value_method (ODataFrame quarterly_income_stmt))]
    None None.

Definition sample_xbrl : pyobj :=
  OObject "XBRL" [("statements", sample_statements)] None None.

Definition sample_filing : pyobj :=
  OObject "TenK" [("xbrl", value_method sample_xbrl)] None None.

Definition sample_latest (ticker filing_type : string) : outcome pyobj :=
  if String.eqb ticker "AAPL" then Ok sample_filing else Ok ONone.

(** A table that lists, per concept, whether it exports to pandas: one of
    its columns is labelled like a method [normalize_statement] looks for. *)
Definition export_flags : DataFrame :=
  {| columns := ["concept"; "to_pandas"];
     body := [(PInt 0, [PStr "Revenue"; PBool true]);
              (PInt 1, [PStr "Assets"; PBool false])] |}.

(** Tables of one period with a zero denominator and a numerator that is
    not a number: a text, and an [int] beyond the floats. *)
Definition unreported_balance_sheet : DataFrame :=
  {| columns := ["current_assets"; "current_liabilities"; "total_assets"];
     body := [(PStr "2023", [PStr "n/a"; PInt 0; PInt 0])] |}.

Definition unreported_income_stmt : DataFrame :=
  {| columns := ["net_income"];
     body := [(PStr "2023", [PStr "n/a"])] |}.

Definition oversized_over_zero : DataFrame :=
  {| columns := ["current_assets"; "current_liabilities"; "total_assets"];
     body := [(PStr "2023", [PInt (10 ^ 400); PInt 0; PInt 0])] |}.

(** [str.lower], [str.upper] and [str.strip] on ASCII text. *)
Definition ascii_lower_char (c : ascii) : ascii :=
  let n := nat_of_ascii c in
  if (65 <=? n)%nat && (n <=? 90)%nat then ascii_of_nat (n + 32) else c.

Definition ascii_upper_char (c : ascii) : ascii :=
  let n := nat_of_ascii c in
  if (97 <=? n)%nat && (n <=? 122)%nat then ascii_of_nat (n - 32) else c.

Fixpoint map_chars (f : ascii → ascii) (s : string) : string :=
  match s with
  | EmptyString => EmptyString
  | String c s' => String (f c) (map_chars f s')
  end.

Definition ascii_lower : string → string := map_chars ascii_lower_char.
Definition ascii_upper : string → string := map_chars ascii_upper_char.

Definition ascii_space (c : ascii) : bool :=
  let n := nat_of_ascii c in
  ((9 <=? n)%nat && (n <=? 13)%nat) || ((28 <=? n)%nat && (n <=? 32)%nat).

Fixpoint ascii_lstrip (s : string) : string :=
  match s with
  | String c s' => if ascii_space c then ascii_lstrip s' else s
  | EmptyString => EmptyString
  end.

Definition ascii_strip (s : string) : string :=
  String.rev (ascii_lstrip (String.rev (ascii_lstrip s))).

(** ** Text lemmas *)

Lemma str_app_assoc (a b c : string) : (a +:+ b) +:+ c = a +:+ b +:+ c.
Proof.
  induction a as [|x a IH]; [reflexivity|].
  change (String x ((a +:+ b) +:+ c) = String x (a +:+ b +:+ c)).
  by rewrite IH.
Qed.

Lemma is_prefix_app (p s : string) : is_prefix p (p +:+ s) = true.
Proof.
  induction p as [|x p IH]; [by destruct s|].
  change (is_prefix (String x p) (String x (p +:+ s)) = true).
  simpl. by rewrite Ascii.eqb_refl.
Qed.

Lemma contains_infix (pre sub post : string) :
  contains sub (pre +:+ sub +:+ post) = true.
Proof.
  induction pre as [|x pre IH].
  - change (contains sub (sub +:+ post) = true).
    destruct (sub +:+ post) eqn:E; simpl; rewrite <- E, is_prefix_app; done.
  - change (contains sub (String x (pre +:+ sub +:+ post)) = true).
    simpl. rewrite IH. by rewrite orb_true_r.
Qed.

Lemma contains_intro (sub s pre post : string) :
  s = pre +:+ sub +:+ post → contains sub s = true.
Proof. intros ->. apply contains_infix. Qed.

(** ** The coercion of statement values *)

(** What a table answers to a name is not callable, or returns when called. *)
Lemma frame_attr_call (df : DataFrame) (n : string) fn :
  getattr (ODataFrame df) n = Some fn →
  call_of fn = None ∨ ∃ v, call_of fn = Some (Ok v).
Proof.
  simpl. destruct (String.eqb n "items").
  { intros [= <-]. right. by eexists. }
  destruct (positions n (columns df)) as [|j [|j' js]]; [done|..];
    intros [= <-]; by left.
Qed.

(** What a table answers to a name is no list, dict or tuple. *)
Lemma frame_attr_container (df : DataFrame) (n : string) k built :
  getattr (ODataFrame df) n ≠ Some (OContainer k built).
Proof.
  simpl. destruct (String.eqb n "items"); [done|].
  by destruct (positions n (columns df)) as [|j [|j' js]].
Qed.

Lemma raises_is_object (obj : pyobj) (meth : string) :
  raises_when_invoked obj meth → ∃ cls attrs call vars, obj = OObject cls attrs call vars.
Proof.
  intros (fn & e & Hg & Hc).
  destruct obj as [df| |k built|cls attrs call vars]; [|done..|by eexists _, _, _, _].
  destruct (frame_attr_call _ _ _ Hg) as [Hno|[v Hv]]; congruence.
Qed.

Lemma getattr_without_attr (x n cls : string) (attrs : list (string * pyobj)) call vars :
  getattr (without_attr x (OObject cls attrs call vars)) n
  = if String.eqb n x then None else getattr (OObject cls attrs call vars) n.
Proof.
  simpl. induction attrs as [|[k v] attrs IH]; simpl.
  { by destruct (String.eqb n x). }
  rewrite filter_cons. simpl.
  destruct (String.eqb k x) eqn:Ekx; simpl.
  - rewrite IH.
    apply String.eqb_eq in Ekx as ->.
    destruct (String.eqb n x) eqn:Enx; [done|].
    by rewrite String.eqb_sym, Enx.
  - destruct (String.eqb k n) eqn:Ekn; simpl.
    + apply String.eqb_eq in Ekn as ->. by rewrite Ekx.
    + apply IH.
Qed.

Lemma try_method_nothing (obj : pyobj) (meth : string) :
  method_yields_nothing obj meth → try_method obj meth = None.
Proof.
  unfold method_yields_nothing, try_method.
  destruct (getattr obj meth) as [fn|]; [|done].
  destruct (call_of fn) as [[res|e]|]; simpl; try done.
  destruct res as [df| |k built|]; simpl; try done.
  by intros [e ->].
Qed.

Lemma raises_yields_nothing (obj : pyobj) (meth : string) :
  raises_when_invoked obj meth → method_yields_nothing obj meth.
Proof. intros (fn & e & Hg & Hc). unfold method_yields_nothing. by rewrite Hg, Hc. Qed.

Lemma try_method_table (obj : pyobj) (meth : string) (df : DataFrame) :
  returns_table obj meth df → try_method obj meth = Some df.
Proof. intros (fn & Hg & Hc). unfold try_method. by rewrite Hg, Hc. Qed.

Lemma probe_methods_app (obj : pyobj) (before after : list string) :
  Forall (method_yields_nothing obj) before →
  probe_methods obj (before ++ after) = probe_methods obj after.
Proof.
  induction 1 as [|m before Hm _ IH]; [done|].
  simpl. by rewrite (try_method_nothing _ _ Hm).
Qed.

Lemma probe_methods_nothing (obj : pyobj) (meths : list string) :
  Forall (method_yields_nothing obj) meths → probe_methods obj meths = None.
Proof.
  intros H. rewrite <- (app_nil_r meths). by rewrite probe_methods_app.
Qed.

Lemma probe_attrs_nothing (obj : pyobj) (attrs : list string) :
  Forall (attr_holds_nothing obj) attrs → probe_attrs obj attrs = Ok None.
Proof.
  induction 1 as [|a attrs Ha _ IH]; [done|].
  simpl. unfold try_attr. unfold attr_holds_nothing in Ha.
  destruct (getattr obj a) as [[]|]; simpl; done.
Qed.

Lemma probe_methods_without (obj : pyobj) (x : string) (meths : list string) :
  raises_when_invoked obj x →
  probe_methods (without_attr x obj) meths = probe_methods obj meths.
Proof.
  intros Hx. induction meths as [|m meths IH]; [done|].
  simpl. rewrite IH.
  assert (try_method (without_attr x obj) m = try_method obj m) as ->; [|done].
  destruct (raises_is_object _ _ Hx) as (cls & attrs & call & vars & ->).
  unfold try_method at 1. rewrite getattr_without_attr.
  destruct (String.eqb m x) eqn:E; [|done].
  apply String.eqb_eq in E as ->.
  symmetry. by apply try_method_nothing, raises_yields_nothing.
Qed.

Lemma probe_attrs_without (obj : pyobj) (x : string) (attrs : list string) :
  x ∉ attrs →
  probe_attrs (without_attr x obj) attrs = probe_attrs obj attrs.
Proof.
  induction attrs as [|a attrs IH]; [done|].
  intros Hx. apply not_elem_of_cons in Hx as [Hxa Hx].
  simpl. rewrite IH by done.
  assert (try_attr (without_attr x obj) a = try_attr obj a) as ->; [|done].
  destruct obj as [df| |k built|cls fields call vars]; [done..|].
  unfold try_attr. rewrite getattr_without_attr.
  destruct (String.eqb a x) eqn:E; [|done].
  by apply String.eqb_eq in E as ->.
Qed.

Lemma methods_are_not_attrs (x : string) :
  x ∈ conversion_methods → x ∉ tabular_attrs.
Proof.
  unfold conversion_methods, tabular_attrs. intros Hx.
  repeat (apply elem_of_cons in Hx as [->|Hx];
          [by apply (bool_decide_unpack _); vm_compute|]).
  by apply elem_of_nil in Hx.
Qed.

(** C10: on [None], [ensure_dataframe] returns no table for any label: it
    raises the [TypeError] whose message is the label followed by
    " is None" (so names the label and says the value is None), decided at
    the guard that precedes every probing loop. *)
Theorem ensure_dataframe_none (name : string) :
  ensure_dataframe ONone name = Raise (TypeError (name +:+ " is None"))
  ∧ contains name (name +:+ " is None") = true
  ∧ contains "is None" (name +:+ " is None") = true.
Proof.
  split_and!; [done| |].
  - by apply (contains_intro _ _ EmptyString " is None").
  - by apply (contains_intro _ _ (name +:+ " ") EmptyString);
      rewrite str_app_assoc.
Qed.

(** C7 (amended): when the value is neither a table nor [None] and every
    strategy of [ensure_dataframe] comes up empty (no probed method hands
    over a table, no probed attribute holds a table or records, the value
    is no list, dict or tuple that pandas accepts, and there is no field
    bag to flatten), [ensure_dataframe] raises a [TypeError] whose message
    carries the value's type, the advice to inspect it, and the label. *)
Theorem ensure_dataframe_total_failure (obj : pyobj) (name : string) :
  (∀ df, obj ≠ ODataFrame df) →
  obj ≠ ONone →
  Forall (method_yields_nothing obj) conversion_methods →
  Forall (attr_holds_nothing obj) tabular_attrs →
  not_constructible obj →
  no_field_bag obj →
  ensure_dataframe obj name = Raise (TypeError (diagnostic name obj))
  ∧ contains (type_repr obj) (diagnostic name obj) = true
  ∧ contains "Inspect with: print(type(" (diagnostic name obj) = true
  ∧ contains name (diagnostic name obj) = true.
Proof.
  intros Hdf Hnone Hmeths Hattrs Hcons Hbag. split_and!.
  - unfold ensure_dataframe.
    rewrite (probe_methods_nothing _ _ Hmeths), (probe_attrs_nothing _ _ Hattrs).
    unfold not_constructible, no_field_bag in *.
    destruct obj as [df| |k [df|e]|cls attrs call vars]; simpl in *; try done.
    + by destruct (Hdf df).
    + by destruct vars as [[]|].
  - apply (contains_intro _ _ (name +:+ " is a ")
      (" and could not be converted automatically to DataFrame." +:+ nl +:+
       "Inspect with: print(type(" +:+ name +:+ ")); print(dir(" +:+ name +:+
       ")); print(repr(" +:+ name +:+ ")[:400])" +:+ nl +:+
       "Common fix: call the object's conversion method (e.g. " +:+ name +:+
       ".to_frame()) before passing it here.")).
    unfold diagnostic. by rewrite !str_app_assoc.
  - apply (contains_intro _ _
      (name +:+ " is a " +:+ type_repr obj +:+
       " and could not be converted automatically to DataFrame." +:+ nl)
      (name +:+ ")); print(dir(" +:+ name +:+
       ")); print(repr(" +:+ name +:+ ")[:400])" +:+ nl +:+
       "Common fix: call the object's conversion method (e.g. " +:+ name +:+
       ".to_frame()) before passing it here.")).
    unfold diagnostic. by rewrite !str_app_assoc.
  - by apply (contains_intro _ _ EmptyString
      (" is a " +:+ type_repr obj +:+
       " and could not be converted automatically to DataFrame." +:+ nl +:+
       "Inspect with: print(type(" +:+ name +:+ ")); print(dir(" +:+ name +:+
       ")); print(repr(" +:+ name +:+ ")[:400])" +:+ nl +:+
       "Common fix: call the object's conversion method (e.g. " +:+ name +:+
       ".to_frame()) before passing it here.")).
Qed.

(** C6 (amended): in [ensure_dataframe] a probed method that raises is
    passed over. The coercion then runs as if the method were not there,
    whatever comes after it; and when the methods ahead of [y] in the
    priority list, the raising [x] among them, hand over nothing and [y]
    returns a table, that table is the result. *)
Theorem ensure_dataframe_isolates_failure (obj : pyobj) (name : string) :
  (∀ x, x ∈ conversion_methods → raises_when_invoked obj x →
     ensure_dataframe obj name = ensure_dataframe (without_attr x obj) name)
  ∧ (∀ x y before after df,
       conversion_methods = before ++ y :: after →
       x ∈ before →
       raises_when_invoked obj x →
       Forall (method_yields_nothing obj) before →
       returns_table obj y df →
       ensure_dataframe obj name = Ok df).
Proof.
  split.
  - intros x Hx Hraise.
    destruct (raises_is_object _ _ Hraise) as (cls & attrs & call & vars & ->).
    unfold ensure_dataframe. cbn [without_attr].
    change (OObject cls (filter _ attrs) call vars)
      with (without_attr x (OObject cls attrs call vars)).
    rewrite (probe_methods_without _ _ _ Hraise).
    rewrite (probe_attrs_without _ _ _ (methods_are_not_attrs _ Hx)).
    done.
  - intros x y before after df Hsplit _ Hraise Hbefore Hy.
    destruct (raises_is_object _ _ Hraise) as (cls & attrs & call & vars & ->).
    unfold ensure_dataframe. rewrite Hsplit.
    rewrite (probe_methods_app _ _ _ Hbefore). simpl.
    by rewrite (try_method_table _ _ _ Hy).
Qed.

(** ** The loop over the periods *)

Lemma for_periods_acc turn (ps : list string) (acc : list RatioResult) :
  for_periods turn ps acc = (acc ++.) <$> for_periods turn ps [].
Proof.
  revert acc. induction ps as [|p ps IH]; intros acc; simpl.
  { by rewrite app_nil_r. }
  destruct (turn p) as [[r|]|e]; simpl; [|done..].
  rewrite (IH (acc ++ [r])), (IH [r]).
  destruct (for_periods turn ps []) as [rs|e]; simpl; [|done].
  by rewrite <- app_assoc.
Qed.

Lemma for_periods_cons turn (p : string) (ps : list string) :
  for_periods turn (p :: ps) [] =
    appended ← turn p;
    rest ← for_periods turn ps [];
    Ok (option_list appended ++ rest).
Proof.
  simpl. destruct (turn p) as [[r|]|e]; simpl; [|by destruct (for_periods _ _ _)|done].
  by rewrite for_periods_acc.
Qed.

Lemma for_periods_app turn (ps1 ps2 : list string) :
  for_periods turn (ps1 ++ ps2) [] =
    rs1 ← for_periods turn ps1 [];
    rs2 ← for_periods turn ps2 [];
    Ok (rs1 ++ rs2).
Proof.
  induction ps1 as [|p ps1 IH].
  { simpl. by destruct (for_periods turn ps2 []). }
  rewrite <- app_comm_cons, !for_periods_cons, IH.
  destruct (turn p) as [o|e]; simpl; [|done].
  destruct (for_periods turn ps1 []) as [rs1|e]; simpl; [|done].
  destruct (for_periods turn ps2 []) as [rs2|e]; simpl; [|done].
  by rewrite app_assoc.
Qed.

(** A period whose turn appends nothing may as well not be in the list. *)
Lemma for_periods_skip turn (before after : list string) (p : string) :
  turn p = Ok None →
  for_periods turn (before ++ p :: after) [] = for_periods turn (before ++ after) [].
Proof.
  intros Hp. rewrite !for_periods_app, for_periods_cons, Hp. simpl.
  destruct (for_periods turn before []) as [rs1|e]; simpl; [|done].
  by destruct (for_periods turn after []).
Qed.

(** A period whose turn appends one result lengthens the results by one. *)
Lemma for_periods_yield turn (before after : list string) (p : string) r rs :
  turn p = Ok (Some r) →
  for_periods turn (before ++ p :: after) [] = Ok rs →
  ∃ rs', for_periods turn (before ++ after) [] = Ok rs'
         ∧ length rs = S (length rs').
Proof.
  intros Hp. rewrite !for_periods_app, for_periods_cons, Hp. simpl.
  destruct (for_periods turn before []) as [rs1|e]; simpl; [|done].
  destruct (for_periods turn after []) as [rs2|e]; simpl; [|done].
  intros [= <-]. eexists; split; [done|].
  rewrite !length_app. simpl. lia.
Qed.

Lemma for_periods_elem_of turn (ps : list string) (p : string) r rs :
  for_periods turn ps [] = Ok rs →
  p ∈ ps → turn p = Ok (Some r) → r ∈ rs.
Proof.
  intros Hrun Hp Hturn.
  apply list_elem_of_split in Hp as (before & after & ->).
  revert Hrun. rewrite for_periods_app, for_periods_cons, Hturn. simpl.
  destruct (for_periods turn before []) as [rs1|e]; simpl; [|done].
  destruct (for_periods turn after []) as [rs2|e]; simpl; [|done].
  intros [= <-]. set_solver.
Qed.

Lemma for_periods_raise turn (ps : list string) e :
  for_periods turn ps [] = Raise e → ∃ q, q ∈ ps ∧ turn q = Raise e.
Proof.
  induction ps as [|p ps IH]; [done|].
  rewrite for_periods_cons.
  destruct (turn p) as [o|e'] eqn:Hp; simpl.
  - destruct (for_periods turn ps []) as [rs|e'] eqn:Hps; simpl; [done|].
    intros [= ->]. destruct IH as (q & Hq & Hturn); [done|].
    exists q. split; [by right|done].
  - intros [= ->]. exists p. split; [by left|done].
Qed.


(** ** The two ratio operations, run on a store *)

Lemma calculate_current_ratio_run self (h : store) bs :
  h !! balance_sheet self = Some bs →
  calculate_current_ratio self h =
    (_ ← _require_columns bs ["current_assets"; "current_liabilities"] "balance_sheet";
     for_periods (current_ratio_turn bs) (periods self) [], h).
Proof.
  intros Hbs. unfold calculate_current_ratio, mbind, M_bind, deref, lift.
  rewrite Hbs. by destruct (_require_columns _ _ _).
Qed.

Lemma calculate_return_on_assets_run self (h : store) is_ bs :
  h !! income_stmt self = Some is_ →
  h !! balance_sheet self = Some bs →
  calculate_return_on_assets self h =
    (_ ← _require_columns is_ ["net_income"] "income_stmt";
     _ ← _require_columns bs ["total_assets"] "balance_sheet";
     for_periods (return_on_assets_turn is_ bs) (periods self) [], h).
Proof.
  intros His Hbs. unfold calculate_return_on_assets, mbind, M_bind, deref, lift.
  rewrite His. destruct (_require_columns is_ _ _); simpl; [|done].
  rewrite Hbs. by destruct (_require_columns bs _ _).
Qed.

(** Neither operation writes to the store. *)
Lemma calculate_current_ratio_reads self (h : store) :
  (calculate_current_ratio self h).2 = h.
Proof.
  unfold calculate_current_ratio, mbind, M_bind, deref, lift.
  destruct (h !! balance_sheet self); [|done].
  by destruct (_require_columns _ _ _).
Qed.

Lemma calculate_return_on_assets_reads self (h : store) :
  (calculate_return_on_assets self h).2 = h.
Proof.
  unfold calculate_return_on_assets, mbind, M_bind, deref, lift.
  destruct (h !! income_stmt self); [|done].
  destruct (_require_columns _ _ _); simpl; [|done].
  destruct (h !! balance_sheet self); [|done].
  by destruct (_require_columns _ _ _).
Qed.

(** ** Rows, keys and columns *)

Lemma is_key_spec (key : string) (v : pyval) : is_key key v = true ↔ v = PStr key.
Proof.
  destruct v as [| | | |s]; simpl; try (split; [done|by intros [=]]).
  rewrite String.eqb_eq. split; [by intros ->|by intros [= ->]].
Qed.

Lemma loc_in_index (df : DataFrame) (p : string) row :
  loc df p = Ok row → in_index p df = true.
Proof.
  unfold loc, in_index. intros Hloc.
  apply bool_decide_eq_true. unfold astype_str, index.
  assert (∃ e, e ∈ filter (λ e : pyval * list pyval, is_key p e.1) (body df))
    as [e He].
  { destruct (filter _ (body df)) as [|e es]; [done|]. exists e. by left. }
  apply list_elem_of_filter in He as [Hkey He].
  apply Is_true_true, is_key_spec in Hkey.
  apply list_elem_of_fmap. exists e.1. rewrite Hkey. split; [done|].
  apply list_elem_of_fmap. by exists e.
Qed.

Lemma positions_from_nil (i : nat) (label : string) (cols : list string) :
  positions_from i label cols = [] ↔ label ∉ cols.
Proof.
  revert i. induction cols as [|c cols IH]; intros i; simpl.
  { split; [intros _; apply not_elem_of_nil|done]. }
  rewrite not_elem_of_cons, <- (IH (S i)).
  destruct (String.eqb c label) eqn:E.
  - apply String.eqb_eq in E as ->. split; [done|by intros []].
  - apply String.eqb_neq in E. simpl. split; [by intros ->|by intros []].
Qed.

Lemma getitem_has_column (df : DataFrame) row (label : string) it :
  getitem (columns df) row label = Ok it → has_column df label = true.
Proof.
  unfold getitem, has_column, positions. intros Hget.
  apply bool_decide_eq_true.
  destruct (decide (label ∈ columns df)) as [|Hno]; [done|].
  apply (positions_from_nil 0) in Hno. by rewrite Hno in Hget.
Qed.

Lemma converted_has_column (df : DataFrame) row (label : string) x :
  getitem (columns df) row label ≫= float_of_item = Ok x →
  has_column df label = true.
Proof.
  destruct (getitem (columns df) row label) as [it|e] eqn:Hget; [|done].
  intros _. by eapply getitem_has_column.
Qed.

Lemma require_columns_present (df : DataFrame) (cols : list string) (df_name : string) :
  Forall (λ c, has_column df c = true) cols →
  _require_columns df cols df_name = Ok ().
Proof.
  intros Hall. unfold _require_columns, missing_columns.
  assert (filter (λ c, negb (has_column df c)) cols = []) as ->; [|done].
  induction Hall as [|c cols Hc _ IH]; [done|].
  rewrite filter_cons, Hc. simpl. done.
Qed.

(** C1 (amended): when the row of a period is found, the numerator converts
    to any float [a] and the denominator converts to a float equal to zero,
    the turn of the period yields the result with value positive infinity,
    and the operation, when it returns, returns it; when the operation
    raises, the exception is that of the turn of another period. This holds
    for the current ratio and for the return on assets. The numerator is
    converted first, so that it has to convert. *)
Theorem zero_denominator_is_infinity :
  (∀ self (h : store) bs p row a d,
     h !! balance_sheet self = Some bs →
     p ∈ periods self →
     loc bs p = Ok row →
     getitem (columns bs) row "current_assets" ≫= float_of_item = Ok a →
     getitem (columns bs) row "current_liabilities" ≫= float_of_item = Ok d →
     (d =? 0)%float = true →
     let r := {| name := "Current Ratio"; period := p; result := infinity |} in
     current_ratio_turn bs p = Ok (Some r)
     ∧ match (calculate_current_ratio self h).1 with
       | Ok rs => r ∈ rs
       | Raise e => ∃ q, q ∈ periods self ∧ q ≠ p ∧ current_ratio_turn bs q = Raise e
       end)
  ∧ (∀ self (h : store) is_ bs p ni_row bs_row a d,
     h !! income_stmt self = Some is_ →
     h !! balance_sheet self = Some bs →
     p ∈ periods self →
     loc is_ p = Ok ni_row →
     loc bs p = Ok bs_row →
     getitem (columns is_) ni_row "net_income" ≫= float_of_item = Ok a →
     getitem (columns bs) bs_row "total_assets" ≫= float_of_item = Ok d →
     (d =? 0)%float = true →
     let r := {| name := "Return on Assets"; period := p; result := infinity |} in
     return_on_assets_turn is_ bs p = Ok (Some r)
     ∧ match (calculate_return_on_assets self h).1 with
       | Ok rs => r ∈ rs
       | Raise e =>
           ∃ q, q ∈ periods self ∧ q ≠ p ∧ return_on_assets_turn is_ bs q = Raise e
       end).
Proof.
  split.
  - intros self h bs p row a d Hbs Hp Hloc Ha Hd Hzero r.
    assert (current_ratio_turn bs p = Ok (Some r)) as Hturn.
    { unfold current_ratio_turn.
      rewrite (loc_in_index _ _ _ Hloc), Hloc. simpl.
      rewrite Ha. simpl. rewrite Hd. simpl. by rewrite Hzero. }
    split; [done|].
    rewrite (calculate_current_ratio_run _ _ _ Hbs). simpl.
    rewrite require_columns_present; simpl.
    2:{ repeat constructor; by eapply converted_has_column. }
    destruct (for_periods _ _ _) as [rs|e] eqn:Hrun.
    + by eapply for_periods_elem_of.
    + apply for_periods_raise in Hrun as (q & Hq & Hraise).
      exists q. split_and!; [done| |done]. intros ->. congruence.
  - intros self h is_ bs p ni_row bs_row a d His Hbs Hp Hni Hloc Ha Hd Hzero r.
    assert (return_on_assets_turn is_ bs p = Ok (Some r)) as Hturn.
    { unfold return_on_assets_turn.
      rewrite (loc_in_index _ _ _ Hni), (loc_in_index _ _ _ Hloc), Hni, Hloc. simpl.
      rewrite Ha. simpl. rewrite Hd. simpl. by rewrite Hzero. }
    split; [done|].
    rewrite (calculate_return_on_assets_run _ _ _ _ His Hbs). simpl.
    rewrite !require_columns_present; simpl.
    2,3: repeat constructor; by eapply converted_has_column.
    destruct (for_periods _ _ _) as [rs|e] eqn:Hrun.
    + by eapply for_periods_elem_of.
    + apply for_periods_raise in Hrun as (q & Hq & Hraise).
      exists q. split_and!; [done| |done]. intros ->. congruence.
Qed.

(** ** Missing columns *)

Lemma elem_of_missing_columns (df : DataFrame) (cols : list string) (c : string) :
  c ∈ missing_columns df cols ↔ c ∈ cols ∧ c ∉ columns df.
Proof.
  unfold missing_columns, has_column. rewrite list_elem_of_filter.
  rewrite negb_True, bool_decide_spec. tauto.
Qed.

Lemma str_app_nil_r (s : string) : s +:+ EmptyString = s.
Proof.
  induction s as [|x s IH]; [done|].
  change (String x (s +:+ EmptyString) = String x s). by rewrite IH.
Qed.

Lemma concat_infix (sep x : string) (l : list string) :
  x ∈ l → ∃ pre post, String.concat sep l = pre +:+ x +:+ post.
Proof.
  induction l as [|y l IH]; [by intros ?%elem_of_nil|].
  intros [->|Hx]%elem_of_cons.
  - destruct l as [|z l].
    + exists EmptyString, EmptyString. simpl. by rewrite str_app_nil_r.
    + exists EmptyString, (sep +:+ String.concat sep (z :: l)). done.
  - destruct (IH Hx) as (pre & post & Heq).
    destruct l as [|z l]; [by apply elem_of_nil in Hx|].
    exists (y +:+ sep +:+ pre), post.
    change (y +:+ sep +:+ String.concat sep (z :: l) =
            (y +:+ sep +:+ pre) +:+ x +:+ post).
    by rewrite Heq, !str_app_assoc.
Qed.

(** The message of [_require_columns] shows every column of its list. *)
Lemma missing_message_lists (df_name c : string) (missing : list string) :
  c ∈ missing →
  contains (repr_str c) (df_name +:+ " missing columns: " +:+ repr_list missing) = true.
Proof.
  intros Hc. unfold repr_list.
  destruct (concat_infix ", " (repr_str c) (repr_str <$> missing))
    as (pre & post & Heq).
  { apply list_elem_of_fmap. by exists c. }
  apply (contains_intro _ _ (df_name +:+ " missing columns: " +:+ "[" +:+ pre)
           (post +:+ "]")).
  by rewrite Heq, !str_app_assoc.
Qed.

Lemma require_columns_missing (df : DataFrame) (cols : list string) (df_name : string) :
  missing_columns df cols ≠ [] →
  _require_columns df cols df_name =
    Raise (ValueError (df_name +:+ " missing columns: "
                         +:+ repr_list (missing_columns df cols))).
Proof. unfold _require_columns. by destruct (missing_columns df cols). Qed.

Lemma missing_columns_one (df : DataFrame) (c : string) :
  missing_columns df [c] = if has_column df c then [] else [c].
Proof.
  unfold missing_columns. rewrite filter_cons, filter_nil.
  by destruct (has_column df c).
Qed.

(** C2 (amended): the columns are checked before any period is looked at,
    one table at a time. The current ratio fails with the [ValueError]
    that lists every required column the balance sheet lacks. The return
    on assets checks the income statement first: without [net_income] it
    fails naming that column of the income statement, whatever the balance
    sheet lacks; with it and without [total_assets], it fails naming that
    column of the balance sheet. No result is returned in these cases and
    the store is as it was. *)
Theorem missing_columns_fail_first self (h : store) is_ bs :
  h !! income_stmt self = Some is_ →
  h !! balance_sheet self = Some bs →
  let missing := missing_columns bs ["current_assets"; "current_liabilities"] in
  let message := "balance_sheet missing columns: " +:+ repr_list missing in
  (∀ c, c ∈ missing ↔
        c ∈ ["current_assets"; "current_liabilities"] ∧ c ∉ columns bs)
  ∧ (missing ≠ [] →
       calculate_current_ratio self h = (Raise (ValueError message), h)
       ∧ ∀ c, c ∈ missing → contains (repr_str c) message = true)
  ∧ (has_column is_ "net_income" = false →
       calculate_return_on_assets self h =
         (Raise (ValueError "income_stmt missing columns: ['net_income']"), h))
  ∧ (has_column is_ "net_income" = true →
     has_column bs "total_assets" = false →
       calculate_return_on_assets self h =
         (Raise (ValueError "balance_sheet missing columns: ['total_assets']"), h)).
Proof.
  intros His Hbs missing message. split_and!.
  - intros c. apply elem_of_missing_columns.
  - intros Hmissing. split.
    + rewrite (calculate_current_ratio_run _ _ _ Hbs).
      by rewrite require_columns_missing.
    + intros c Hc. exact (missing_message_lists "balance_sheet" c missing Hc).
  - intros Hni. rewrite (calculate_return_on_assets_run _ _ _ _ His Hbs).
    unfold _require_columns. by rewrite (missing_columns_one is_), Hni.
  - intros Hni Hta. rewrite (calculate_return_on_assets_run _ _ _ _ His Hbs).
    unfold _require_columns.
    by rewrite (missing_columns_one is_), (missing_columns_one bs), Hni, Hta.
Qed.

(** ** The constructor and the caller's frames *)

Lemma caller_frames_kept_refl (h0 : store) : caller_frames_kept h0 h0.
Proof. by split. Qed.

Section Keeps.
Variable h0 : store.

Lemma keeps_ret {A} (a : A) (post : A → Prop) :
  post a → keeps_caller_frames h0 (mret a) post.
Proof. intros Ha h Hh. split; [done|]. by intros ? [= <-]. Qed.

Lemma keeps_bind {A B} (m : M A) (f : A → M B) (mid : A → Prop) (post : B → Prop) :
  keeps_caller_frames h0 m mid →
  (∀ a, mid a → keeps_caller_frames h0 (f a) post) →
  keeps_caller_frames h0 (m ≫= f) post.
Proof.
  intros Hm Hf h Hh. destruct (Hm h Hh) as [Hkept Hmid].
  unfold mbind, M_bind. destruct (m h) as [[a|e] h1]; simpl in *.
  - by apply Hf; [apply Hmid|].
  - by split.
Qed.

Lemma keeps_weaken {A} (m : M A) (post post' : A → Prop) :
  keeps_caller_frames h0 m post → (∀ a, post a → post' a) →
  keeps_caller_frames h0 m post'.
Proof. intros Hm Himp h Hh. destruct (Hm h Hh). naive_solver. Qed.

Lemma keeps_deref (r : ref) : keeps_caller_frames h0 (deref r) (λ _, True).
Proof. intros h Hh. unfold deref. by destruct (h !! r). Qed.

(** A copy is a new frame: its reference lies beyond the caller's. *)
Lemma keeps_copy (r : ref) : keeps_caller_frames h0 (copy r) (λ c, length h0 ≤ c).
Proof.
  intros h [Hlen Hkept]. unfold copy.
  destruct (h !! r) as [df|]; [|by split].
  split; [split|]; cbn [fst snd].
  - rewrite length_app. lia.
  - intros l Hl. rewrite lookup_app_l by lia. by apply Hkept.
  - by intros ? [= <-].
Qed.

(** An update in place of a frame beyond the caller's keeps the caller's. *)
Lemma keeps_set_index_inplace (r : ref) (label : string) :
  length h0 ≤ r → keeps_caller_frames h0 (set_index_inplace r label) (λ _, True).
Proof.
  intros Hr h [Hlen Hkept]. unfold set_index_inplace.
  destruct (h !! r) as [df|]; [|by split].
  destruct (set_index df label) as [df'|e]; [|by split].
  split; [split|done]; cbn [fst snd].
  - by rewrite length_insert.
  - intros l Hl. rewrite list_lookup_insert_ne by lia. by apply Hkept.
Qed.

Lemma keeps_promote_period (r : ref) :
  length h0 ≤ r → keeps_caller_frames h0 (promote_period r) (λ _, True).
Proof.
  intros Hr. unfold promote_period.
  apply (keeps_bind _ _ (λ _, True)); [apply keeps_deref|].
  intros df _. destruct (has_column df "period").
  - by apply keeps_set_index_inplace.
  - by apply keeps_ret.
Qed.

Lemma keeps_for_each (rs : list ref) :
  Forall (λ r, length h0 ≤ r) rs →
  keeps_caller_frames h0 (for_each promote_period rs) (λ _, True).
Proof.
  induction 1 as [|r rs Hr _ IH]; simpl.
  - by apply keeps_ret.
  - apply (keeps_bind _ _ (λ _, True)); [by apply keeps_promote_period|done].
Qed.

Lemma keeps_init (bs is_ : ref) (cf ps : option _) :
  keeps_caller_frames h0 (__init__ bs is_ cf ps)
    (λ self, length h0 ≤ balance_sheet self
             ∧ length h0 ≤ income_stmt self
             ∧ ∀ c, cash_flow self = Some c → length h0 ≤ c).
Proof.
  unfold __init__.
  apply (keeps_bind _ _ (λ c, length h0 ≤ c)); [apply keeps_copy|].
  intros b Hb.
  apply (keeps_bind _ _ (λ c, length h0 ≤ c)); [apply keeps_copy|].
  intros i Hi.
  apply (keeps_bind _ _ (λ oc, ∀ c, oc = Some c → length h0 ≤ c)).
  { destruct cf as [r|].
    - apply (keeps_bind _ _ (λ c, length h0 ≤ c)); [apply keeps_copy|].
      intros c Hc. apply keeps_ret. by intros ? [= <-].
    - by apply keeps_ret. }
  intros oc Hoc.
  apply (keeps_bind _ _ (λ _, True)).
  { apply keeps_for_each. repeat constructor; [done..|].
    destruct oc as [c|]; simpl; repeat constructor. by apply Hoc. }
  intros _ _.
  apply (keeps_bind _ _ (λ _, True)).
  { destruct ps as [given|]; [by apply keeps_ret|].
    apply (keeps_bind _ _ (λ _, True)); [apply keeps_deref|]. intros bsf _.
    apply (keeps_bind _ _ (λ _, True)); [apply keeps_deref|]. intros isf _.
    by apply keeps_ret. }
  intros periods_ _. by apply keeps_ret.
Qed.
End Keeps.

(** C9: whatever the constructor does, returning or raising, every frame
    the caller had is afterwards what it was; the frames the analyzer
    refers to are new ones, beyond the caller's; and the two ratio
    operations leave every store as they found it. *)
Theorem caller_frames_never_mutated (bs is_ : ref) (cf : option ref)
    (ps : option (list string)) (h : store) :
  (∀ l df, h !! l = Some df → (__init__ bs is_ cf ps h).2 !! l = Some df)
  ∧ (∀ self, (__init__ bs is_ cf ps h).1 = Ok self →
       length h ≤ balance_sheet self
       ∧ length h ≤ income_stmt self
       ∧ ∀ c, cash_flow self = Some c → length h ≤ c)
  ∧ (∀ self (h' : store),
       (calculate_current_ratio self h').2 = h'
       ∧ (calculate_return_on_assets self h').2 = h').
Proof.
  destruct (keeps_init h bs is_ cf ps h (caller_frames_kept_refl h))
    as [[_ Hkept] Hself].
  split_and!.
  - intros l df Hl. rewrite Hkept; [done|]. by eapply lookup_lt_Some.
  - done.
  - intros self h'. split.
    + apply calculate_current_ratio_reads.
    + apply calculate_return_on_assets_reads.
Qed.

(** ** The constructor returns *)

Lemma positions_from_ge (i : nat) (label : string) (cols : list string) (j : nat) :
  j ∈ positions_from i label cols → i ≤ j.
Proof.
  revert i. induction cols as [|c cols IH]; intros i; simpl.
  { by intros ?%elem_of_nil. }
  rewrite elem_of_app. intros [Hj|Hj].
  - destruct (String.eqb c label); [|by apply elem_of_nil in Hj].
    apply list_elem_of_singleton in Hj. lia.
  - apply IH in Hj. lia.
Qed.

Lemma positions_from_shift (i i' : nat) (label : string) (cols : list string) :
  positions_from i label cols = [] → positions_from i' label cols = [].
Proof. rewrite !positions_from_nil. done. Qed.

(** Taking the one column of a label away leaves none of that label. *)
Lemma positions_from_delete (i j : nat) (label : string) (cols : list string) :
  positions_from i label cols = [i + j] →
  positions_from i label (delete j cols) = [].
Proof.
  revert i j. induction cols as [|c cols IH]; intros i j; [done|].
  simpl. destruct (String.eqb c label) eqn:E; simpl.
  - intros [= Hj Hrest]. assert (j = 0) as -> by lia. simpl.
    by eapply positions_from_shift.
  - intros Hrest. destruct j as [|j].
    + assert (S i ≤ i + 0); [|lia].
      apply (positions_from_ge _ label cols). rewrite Hrest. by left.
    + simpl. rewrite E. simpl. apply IH. rewrite Hrest. f_equal. lia.
Qed.

Lemma set_index_period_returns (df : DataFrame) :
  has_column df "period" = true →
  one_period_column df →
  ∃ df', set_index df "period" = Ok df' ∧ one_period_column df'.
Proof.
  unfold has_column, one_period_column, set_index, positions.
  intros Hcol Hone. apply bool_decide_eq_true in Hcol.
  destruct (positions_from 0 "period" (columns df)) as [|j [|j' js]] eqn:Hpos.
  - by apply positions_from_nil in Hpos.
  - eexists. split; [done|]. simpl.
    rewrite (positions_from_delete 0 j); [simpl; lia|done].
  - simpl in Hone. lia.
Qed.

Lemma returns_bind {A B} (m : M A) (f : A → M B) pre mid post :
  returns_from pre m mid →
  (∀ a, returns_from (mid a) (f a) post) →
  returns_from pre (m ≫= f) post.
Proof.
  intros Hm Hf h Hh. destruct (Hm h Hh) as (a & h1 & Hrun & Hmid).
  destruct (Hf a h1 Hmid) as (b & h2 & Hrun' & Hpost).
  exists b, h2. unfold mbind, M_bind. by rewrite Hrun.
Qed.

Lemma returns_ret {A} (a : A) (pre : store → Prop) :
  returns_from pre (mret a) (λ a' h, a' = a ∧ pre h).
Proof. intros h Hh. by exists a, h. Qed.

Lemma returns_deref (n : nat) (r : ref) :
  r < n → returns_from (ready n) (deref r) (λ _, ready n).
Proof.
  intros Hr h [Hall Hn]. unfold deref.
  destruct (lookup_lt_is_Some_2 h r) as [df Hdf]; [lia|].
  rewrite Hdf. by exists df, h.
Qed.

(** The copy is a further live reference. *)
Lemma returns_copy (n : nat) (r : ref) :
  r < n → returns_from (ready n) (copy r) (λ c h, n ≤ c ∧ ready (S c) h).
Proof.
  intros Hr h [Hall Hn]. unfold copy.
  destruct (lookup_lt_is_Some_2 h r) as [df Hdf]; [lia|].
  rewrite Hdf. eexists _, _. split; [done|]. split; [done|]. split.
  - apply Forall_app. split; [done|]. constructor; [|done].
    by eapply Forall_lookup_1.
  - rewrite length_app. simpl. lia.
Qed.

Lemma returns_promote_period (n : nat) (r : ref) :
  r < n → returns_from (ready n) (promote_period r) (λ _, ready n).
Proof.
  intros Hr h [Hall Hn]. unfold promote_period, mbind, M_bind, deref.
  destruct (lookup_lt_is_Some_2 h r) as [df Hdf]; [lia|].
  rewrite Hdf. destruct (has_column df "period") eqn:Hcol.
  - destruct (set_index_period_returns df Hcol) as (df' & Hset & Hone).
    { by eapply Forall_lookup_1. }
    unfold set_index_inplace. rewrite Hdf, Hset.
    eexists _, _. split; [done|]. split.
    + by apply Forall_insert.
    + by rewrite length_insert.
  - by exists (), h.
Qed.

Lemma returns_for_each (n : nat) (rs : list ref) :
  Forall (λ r, r < n) rs →
  returns_from (ready n) (for_each promote_period rs) (λ _, ready n).
Proof.
  induction 1 as [|r rs Hr _ IH]; simpl.
  - intros h Hh. by exists (), h.
  - eapply returns_bind; [by apply returns_promote_period|]. by intros [].
Qed.

Lemma ready_le (n n' : nat) (h : store) : n ≤ n' → ready n' h → ready n h.
Proof. intros Hle [Hall Hn]. split; [done|lia]. Qed.

Lemma returns_weaken {A} (m : M A) (pre pre' : store → Prop) (post post' : A → store → Prop) :
  returns_from pre m post →
  (∀ h, pre' h → pre h) → (∀ a h, post a h → post' a h) →
  returns_from pre' m post'.
Proof.
  intros Hm Hpre Hpost h Hh. destruct (Hm h (Hpre h Hh)) as (a & h' & Hrun & Ha).
  exists a, h'. auto.
Qed.

(** With live references to frames that have at most one period column
    each, in a store of such frames, the constructor returns an analyzer. *)
Lemma init_returns (bs is_ : ref) (cf : option ref) (ps : option (list string))
    (h : store) :
  Forall one_period_column h →
  bs < length h → is_ < length h → (∀ r, cf = Some r → r < length h) →
  ∃ self h', __init__ bs is_ cf ps h = (Ok self, h').
Proof.
  intros Hall Hbs His Hcf.
  assert (returns_from (ready (length h)) (__init__ bs is_ cf ps) (λ _ _, True))
    as Hret; [|destruct (Hret h) as (self & h' & Hrun & _); [by split|by eauto]].
  unfold __init__.
  eapply returns_bind; [by apply returns_copy|]. intros b. simpl.
  apply (returns_bind _ _ _ (λ i h1, length h ≤ b ∧ b < i ∧ ready (S i) h1)).
  { intros h1 [Hb Hready]. destruct (returns_copy (S b) is_) with (h := h1)
      as (i & h2 & Hrun & Hi & Hready2); [lia|done|].
    exists i, h2. split; [done|]. split_and!; [done|lia|done]. }
  intros i.
  apply (returns_bind _ _ _
           (λ oc h1, ∃ n, b < n ∧ i < n ∧ (∀ c, oc = Some c → c < n) ∧ ready n h1)).
  { intros h1 (Hb & Hi & Hready). destruct cf as [r|].
    - destruct (returns_copy (S i) r) with (h := h1)
        as (c & h2 & Hrun & Hc & Hready2); [specialize (Hcf r eq_refl); lia|done|].
      exists (Some c), h2. unfold mbind, M_bind. rewrite Hrun. split; [done|].
      exists (S c). split_and!; [lia|lia| |done]. intros ? [= <-]. lia.
    - exists None, h1. split; [done|]. exists (S i). split_and!; [lia|lia|done|done]. }
  intros oc.
  apply (returns_bind _ _ _ (λ _ h1, ∃ n, b < n ∧ i < n ∧ ready n h1)).
  { intros h1 (n & Hb & Hi & Hoc & Hready).
    destruct (returns_for_each n (b :: i :: option_list oc)) with (h := h1)
      as ([] & h2 & Hrun & Hready2); [|done|by eauto 10].
    repeat constructor; [done..|]. destruct oc as [c|]; simpl; repeat constructor.
    by apply Hoc. }
  intros _.
  apply (returns_bind _ _ _ (λ _ _, True)); [|by intros found h1 _; eexists _, _].
  intros h1 (n & Hb & Hi & Hready). destruct ps as [given|].
  { by exists given, h1. }
  destruct (returns_deref n b Hb h1 Hready) as (bsf & h2 & Hrun & Hready2).
  destruct (returns_deref n i Hi h2 Hready2) as (isf & h3 & Hrun2 & _).
  eexists _, h3. unfold mbind, M_bind. by rewrite Hrun, Hrun2.
Qed.

(** ** The period set *)

Lemma bind_ok {A B} (m : M A) (f : A → M B) (h h' : store) (b : B) :
  (m ≫= f) h = (Ok b, h') → ∃ a h1, m h = (Ok a, h1) ∧ f a h1 = (Ok b, h').
Proof.
  unfold mbind, M_bind. destruct (m h) as [[a|e] h1]; [|done].
  intros Hf. by exists a, h1.
Qed.

Lemma deref_ok (r : ref) (h h' : store) df :
  deref r h = (Ok df, h') → h' = h ∧ h !! r = Some df.
Proof. unfold deref. destruct (h !! r); [|done]. by intros [= -> ->]. Qed.





Lemma current_ratio_turn_period (bs : DataFrame) (p : string) r :
  current_ratio_turn bs p = Ok (Some r) → period r = p.
Proof.
  unfold current_ratio_turn.
  destruct (negb (in_index p bs)); [done|].
  destruct (loc bs p) as [row|e]; [|done]. simpl.
  destruct (getitem _ row "current_assets" ≫= float_of_item) as [a|e]; simpl.
  - destruct (getitem _ row "current_liabilities" ≫= float_of_item) as [d|e]; simpl.
    + by intros [= <-].
    + by destruct (caught e).
  - by destruct (caught e).
Qed.

Lemma return_on_assets_turn_period (is_ bs : DataFrame) (p : string) r :
  return_on_assets_turn is_ bs p = Ok (Some r) → period r = p.
Proof.
  unfold return_on_assets_turn.
  destruct (_ || _); [done|].
  destruct (loc is_ p) as [ni_row|e]; [|done]. simpl.
  destruct (loc bs p) as [bs_row|e]; [|done]. simpl.
  destruct (getitem _ ni_row "net_income" ≫= float_of_item) as [a|e]; simpl.
  - destruct (getitem _ bs_row "total_assets" ≫= float_of_item) as [d|e]; simpl.
    + by intros [= <-].
    + by destruct (caught e).
  - by destruct (caught e).
Qed.


(** ** Looking a period up by its text *)

Lemma filter_no_key (kf : pyval * list pyval → string)
    (rowf : pyval * list pyval → list pyval) (l : list (pyval * list pyval)) (k : string) :
  k ∉ kf <$> l →
  filter (λ e : pyval * list pyval, is_key k e.1)
         ((λ e, (PStr (kf e), rowf e)) <$> l) = [].
Proof.
  induction l as [|e l IH]; [done|].
  rewrite fmap_cons, not_elem_of_cons. intros [Hne Hk].
  rewrite fmap_cons, filter_cons. simpl.
  destruct (String.eqb (kf e) k) eqn:E.
  - by apply String.eqb_eq in E.
  - simpl. by apply IH.
Qed.

(** Under row keys that are texts, each carried by one row, [loc] on the
    text of a row selects that row. *)
Lemma loc_unique_key (cols : list string) (kf : pyval * list pyval → string)
    (rowf : pyval * list pyval → list pyval) (l : list (pyval * list pyval))
    (i : nat) x :
  NoDup (kf <$> l) →
  l !! i = Some x →
  loc {| columns := cols; body := (λ e, (PStr (kf e), rowf e)) <$> l |} (kf x)
    = Ok (Row (rowf x)).
Proof.
  unfold loc. simpl. revert i.
  induction l as [|e l IH]; intros i Hnodup Hi; [done|].
  rewrite fmap_cons in Hnodup. apply NoDup_cons in Hnodup as [Hfresh Hnodup].
  rewrite fmap_cons, filter_cons. simpl.
  destruct i as [|i]; simpl in Hi.
  - injection Hi as ->. rewrite String.eqb_refl. simpl.
    by rewrite filter_no_key.
  - destruct (String.eqb (kf e) (kf x)) eqn:E.
    + apply String.eqb_eq in E. destruct Hfresh. rewrite E.
      apply list_elem_of_fmap. exists x. split; [done|].
      by eapply list_elem_of_lookup_2.
    + simpl. by eapply IH.
Qed.

(** X9: [_normalize] of tickerinput.py: with one "period" column whose
    values read as pairwise distinct texts, looking up the text of the
    period of a row selects the rest of that row. *)
Lemma normalize_lookup_period (df df' : DataFrame) (j i : nat) key cells v :
  positions "period" (columns df) = [j] →
  NoDup ((λ e : pyval * list pyval, py_str (default PNone (e.2 !! j))) <$> body df) →
  body df !! i = Some (key, cells) →
  cells !! j = Some v →
  _normalize df = Ok df' →
  columns df' = delete j (columns df)
  ∧ Forall (λ k, ∃ s, k = PStr s) (index df')
  ∧ loc df' (py_str v) = Ok (Row (delete j cells)).
Proof.
  intros Hpos Hnodup Hi Hv. unfold _normalize.
  assert (has_column df "period" = true) as ->.
  { apply bool_decide_eq_true. destruct (decide ("period" ∈ columns df)); [done|].
    exfalso. assert (positions "period" (columns df) = []) as Hnil
      by by apply positions_from_nil.
    by rewrite Hnil in Hpos. }
  unfold set_index. rewrite Hpos. simpl. intros [= <-]. simpl.
  rewrite <- list_fmap_compose. split_and!; [done| |].
  - unfold index. simpl. rewrite <- list_fmap_compose.
    apply Forall_fmap, Forall_forall. intros e _. simpl. by eexists.
  - pose proof (loc_unique_key (delete j (columns df))
                  (λ e, py_str (default PNone (e.2 !! j)))
                  (λ e, delete j e.2) (body df) i (key, cells) Hnodup Hi) as Hloc.
    simpl in Hloc. by rewrite Hv in Hloc.
Qed.

(** Without a "period" column the row keys themselves are read as texts. *)
Lemma normalize_lookup_key (df df' : DataFrame) (i : nat) key cells :
  has_column df "period" = false →
  NoDup (astype_str (index df)) →
  body df !! i = Some (key, cells) →
  _normalize df = Ok df' →
  columns df' = columns df
  ∧ Forall (λ k, ∃ s, k = PStr s) (index df')
  ∧ loc df' (py_str key) = Ok (Row cells).
Proof.
  intros Hcol Hnodup Hi. unfold _normalize. rewrite Hcol. simpl.
  intros [= <-]. simpl. split_and!; [done| |].
  - unfold index. simpl. rewrite <- list_fmap_compose.
    apply Forall_fmap, Forall_forall. intros e _. simpl. by eexists.
  - unfold astype_str, index in Hnodup. rewrite <- list_fmap_compose in Hnodup.
    apply (loc_unique_key (columns df) (λ e, py_str e.1) (λ e, e.2)
             (body df) i (key, cells) Hnodup Hi).
Qed.

(** C3 (the analyzer departs from it): on a balance sheet whose period
    column holds the [int] 2023, [_normalize] of tickerinput.py keys the
    row by the text "2023" and finds it under that text, while the
    constructor of the analyzer keeps the [int] as the key; the period set
    it derives holds the text "2023", and the current ratio raises
    [KeyError] on looking that text up. *)
Theorem analyzer_keeps_integer_keys :
  (index <$> _normalize yearly_balance_sheet) = Ok [PStr "2023"]
  ∧ (_normalize yearly_balance_sheet ≫= λ df, loc df "2023")
      = Ok (Row [PInt 200; PInt 100; PInt 1000])
  ∧ ∃ self (h' : store),
      __init__ 0 1 None None [yearly_balance_sheet; yearly_income_stmt] = (Ok self, h')
      ∧ periods self = ["2023"]
      ∧ (index <$> h' !! balance_sheet self) = Some [PInt 2023]
      ∧ calculate_current_ratio self h' = (Raise (KeyError "'2023'"), h')
      ∧ calculate_return_on_assets self h' = (Raise (KeyError "'2023'"), h').
Proof.
  split_and!; [by vm_compute..|].
  eexists _, _. split_and!; by vm_compute.
Qed.

(** ** Periods that yield nothing *)

Lemma absent_period_current_ratio (bs : DataFrame) (p : string) :
  in_index p bs = false → current_ratio_turn bs p = Ok None.
Proof. intros Hp. unfold current_ratio_turn. by rewrite Hp. Qed.

Lemma absent_period_return_on_assets (is_ bs : DataFrame) (p : string) :
  in_index p is_ = false ∨ in_index p bs = false →
  return_on_assets_turn is_ bs p = Ok None.
Proof.
  intros Hp. unfold return_on_assets_turn.
  destruct Hp as [-> | ->]; [done|]. by rewrite orb_true_r.
Qed.

(** [float] of a cell raises [TypeError] or [ValueError], which the
    operations catch, or, on an [int] too large, [OverflowError]. *)
Lemma py_float_raises (v : pyval) e :
  py_float v = Raise e →
  caught e = true ∨ ∃ z msg, v = PInt z ∧ e = OverflowError msg.
Proof.
  destruct v as [|b|z|f|s]; simpl; try done.
  - intros [= <-]. by left.
  - unfold float_of_int. destruct (binary_normalize _ _ _ _ _); try done.
    intros [= <-]. right. by eexists _, _.
  - destruct (float_of_str s); [done|]. intros [= <-]. by left.
Qed.

Lemma unconverted_current_ratio (bs : DataFrame) (p : string) row e :
  loc bs p = Ok row →
  getitem (columns bs) row "current_assets" ≫= float_of_item = Raise e
  ∨ (∃ a, getitem (columns bs) row "current_assets" ≫= float_of_item = Ok a)
    ∧ getitem (columns bs) row "current_liabilities" ≫= float_of_item = Raise e →
  caught e = true →
  current_ratio_turn bs p = Ok None.
Proof.
  intros Hloc Hconv Hcaught. unfold current_ratio_turn.
  rewrite (loc_in_index _ _ _ Hloc), Hloc. simpl.
  destruct Hconv as [-> | [[a ->] ->]]; simpl; by rewrite Hcaught.
Qed.

(** Among periods that each yield a result or nothing, putting a period
    that yields nothing in the place of one that yields a result shortens
    the results by exactly one. *)
Lemma missing_period_shrinks turn (before after : list string)
    (covered missing : string) r rs :
  turn covered = Ok (Some r) →
  turn missing = Ok None →
  for_periods turn (before ++ covered :: after) [] = Ok rs →
  ∃ rs', for_periods turn (before ++ missing :: after) [] = Ok rs'
         ∧ length rs = S (length rs').
Proof.
  intros Hcovered Hmissing Hrun.
  rewrite (for_periods_skip _ _ _ _ Hmissing).
  by eapply for_periods_yield.
Qed.

(** A period absent from the row keys leaves no trace in what the current
    ratio returns or raises: the call is the one without the period. *)
Lemma absent_period_no_effect_current_ratio self (h : store) bs
    (before after : list string) (p : string) :
  h !! balance_sheet self = Some bs →
  in_index p bs = false →
  periods self = before ++ p :: after →
  calculate_current_ratio self h =
    calculate_current_ratio
      (mkAnalyzer (balance_sheet self) (income_stmt self) (cash_flow self)
                  (before ++ after)) h.
Proof.
  intros Hbs Hp Hps.
  rewrite (calculate_current_ratio_run _ _ _ Hbs), Hps.
  rewrite (calculate_current_ratio_run _ _ bs) by done. simpl.
  by rewrite (for_periods_skip _ _ _ _ (absent_period_current_ratio _ _ Hp)).
Qed.

(** The same for the return on assets, for a period absent from either
    table. *)
Lemma absent_period_no_effect_return_on_assets self (h : store) is_ bs
    (before after : list string) (p : string) :
  h !! income_stmt self = Some is_ →
  h !! balance_sheet self = Some bs →
  in_index p is_ = false ∨ in_index p bs = false →
  periods self = before ++ p :: after →
  calculate_return_on_assets self h =
    calculate_return_on_assets
      (mkAnalyzer (balance_sheet self) (income_stmt self) (cash_flow self)
                  (before ++ after)) h.
Proof.
  intros His Hbs Hp Hps.
  rewrite (calculate_return_on_assets_run _ _ _ _ His Hbs), Hps.
  rewrite (calculate_return_on_assets_run _ _ is_ bs) by done. simpl.
  by rewrite (for_periods_skip _ _ _ _ (absent_period_return_on_assets _ _ _ Hp)).
Qed.

(** C4 (the code departs from it): a balance sheet whose current assets
    of period "2023" are the [int] 10**400. The conversion of the cell
    fails with [OverflowError], which the operation does not catch: the
    current ratio raises instead of passing over the period. *)
Theorem oversized_integer_escapes :
  py_float (PInt (10 ^ 400)) = Raise (OverflowError "int too large to convert to float")
  ∧ caught (OverflowError "int too large to convert to float") = false
  ∧ ∃ self (h' : store),
      __init__ 0 1 None None [oversized_balance_sheet; plain_income_stmt] = (Ok self, h')
      ∧ periods self = ["2023"]
      ∧ calculate_current_ratio self h'
          = (Raise (OverflowError "int too large to convert to float"), h').
Proof.
  split_and!; [by vm_compute..|].
  eexists _, _. split_and!; by vm_compute.
Qed.

(** ** More on the coercions *)

Lemma probe_attrs_app (obj : pyobj) (before after : list string) :
  Forall (attr_holds_nothing obj) before →
  probe_attrs obj (before ++ after) = probe_attrs obj after.
Proof.
  induction 1 as [|a before Ha _ IH]; [done|].
  simpl. unfold try_attr. unfold attr_holds_nothing in Ha.
  destruct (getattr obj a) as [[]|]; simpl; done.
Qed.

Lemma holds_records_is_object (obj : pyobj) (a : string) k built :
  getattr obj a = Some (OContainer k built) →
  ∃ cls attrs call vars, obj = OObject cls attrs call vars.
Proof.
  destruct obj as [df| | |cls attrs call vars]; [|done..|by eexists _, _, _, _].
  intros Ha. by destruct (frame_attr_container _ _ _ _ Ha).
Qed.

(** X1: in [ensure_dataframe], when no probed method hands over a table,
    the first probed attribute that holds a table or records decides: a
    table is returned as it is, records as the table pandas makes of them,
    whatever the value's own shape and field bag are. A value that is a
    table itself is returned before any name is looked up on it, also when
    pandas would answer the name with columns of it. *)
Theorem ensure_dataframe_from_attribute (obj : pyobj) (name a : string)
    (before after : list string) (df : DataFrame) :
  Forall (method_yields_nothing obj) conversion_methods →
  tabular_attrs = before ++ a :: after →
  Forall (attr_holds_nothing obj) before →
  getattr obj a = Some (ODataFrame df)
  ∨ (∃ k, getattr obj a = Some (OContainer k (Ok df))) →
  ensure_dataframe obj name = Ok (match obj with ODataFrame own => own | _ => df end).
Proof.
  intros Hmeths Hsplit Hbefore Ha.
  destruct obj as [own| |k' built|cls attrs call vars].
  - done.
  - by destruct Ha as [?|[? ?]].
  - by destruct Ha as [?|[? ?]].
  - unfold ensure_dataframe.
    rewrite (probe_methods_nothing _ _ Hmeths), Hsplit, (probe_attrs_app _ _ _ Hbefore).
    cbn [probe_attrs]. unfold try_attr. by destruct Ha as [-> | [k ->]].
Qed.

(** X2: the attribute loop of [ensure_dataframe] does not guard
    [pd.DataFrame(val)]: when the first probed attribute that holds a table
    or records holds records that pandas rejects, what pandas raised comes
    out of the coercion, and neither the later attributes nor the field bag
    are tried. *)
Theorem ensure_dataframe_attribute_failure (obj : pyobj) (name a : string)
    (before after : list string) (k : container) (e : exn) :
  Forall (method_yields_nothing obj) conversion_methods →
  tabular_attrs = before ++ a :: after →
  Forall (attr_holds_nothing obj) before →
  getattr obj a = Some (OContainer k (Raise e)) →
  ensure_dataframe obj name = Raise e.
Proof.
  intros Hmeths Hsplit Hbefore Ha.
  destruct (holds_records_is_object _ _ _ _ Ha) as (cls & attrs & call & vars & ->).
  unfold ensure_dataframe.
  rewrite (probe_methods_nothing _ _ Hmeths), Hsplit, (probe_attrs_app _ _ _ Hbefore).
  cbn [probe_attrs]. unfold try_attr. by rewrite Ha.
Qed.

(** X3: the last resorts of [ensure_dataframe]. A list, dict or tuple
    becomes the table pandas makes of it; an object with no yielding method
    and no tabular attribute becomes the table [pd.json_normalize] makes of
    its field bag. In both, a failure of pandas is swallowed and the
    diagnostic [TypeError] is raised in its place. *)
Theorem ensure_dataframe_last_resorts (name : string) :
  (∀ k built,
     ensure_dataframe (OContainer k built) name =
       match built with
       | Ok df => Ok df
       | Raise _ => Raise (TypeError (diagnostic name (OContainer k built)))
       end)
  ∧ (∀ cls attrs call vars,
       let obj := OObject cls attrs call vars in
       Forall (method_yields_nothing obj) conversion_methods →
       Forall (attr_holds_nothing obj) tabular_attrs →
       ensure_dataframe obj name =
         match vars with
         | Some (Ok df) => Ok df
         | _ => Raise (TypeError (diagnostic name obj))
         end).
Proof.
  split.
  - by intros k [df|e].
  - intros cls attrs call vars obj Hmeths Hattrs. subst obj. unfold ensure_dataframe.
    rewrite (probe_methods_nothing _ _ Hmeths), (probe_attrs_nothing _ _ Hattrs).
    simpl. by destruct vars as [[]|].
Qed.

Lemma probe_statement_app (stmt : pyobj) (before after : list string) :
  Forall (λ n, getattr stmt n = None) before →
  probe_statement stmt (before ++ after) = probe_statement stmt after.
Proof.
  induction 1 as [|n before Hn _ IH]; [done|]. simpl. by rewrite Hn.
Qed.

(** X4: in [normalize_statement], for a statement that is not callable, the
    first of [get_dataframe], [to_pandas], [to_dataframe] that is an
    attribute of it decides alone: the outcome is that of calling it, be it
    any value at all (it is not checked to be a table), the exception it
    raises, or the [TypeError] of calling what is not callable. *)
Theorem normalize_statement_first_method (stmt fn : pyobj) (a : string)
    (before after : list string) :
  call_of stmt = None →
  statement_methods = before ++ a :: after →
  Forall (λ n, getattr stmt n = None) before →
  getattr stmt a = Some fn →
  normalize_statement stmt = invoke fn.
Proof.
  intros Hcall Hsplit Hbefore Ha. unfold normalize_statement.
  rewrite Hcall, Hsplit. unfold mbind, outcome_bind.
  rewrite (probe_statement_app _ _ _ Hbefore). simpl. by rewrite Ha.
Qed.

(** ** Tables as statements *)

(** A name other than [items] is an attribute of a table exactly when a
    column carries it. *)
Lemma frame_attr_none (df : DataFrame) (n : string) :
  n ≠ "items" → getattr (ODataFrame df) n = None ↔ n ∉ columns df.
Proof.
  intros Hn. apply String.eqb_neq in Hn. simpl. rewrite Hn.
  rewrite <- (positions_from_nil 0). unfold positions.
  destruct (positions_from 0 n (columns df)) as [|j [|j' js]]; by split.
Qed.

(** Such an attribute is a Series or a frame, and calling it raises. *)
Lemma frame_attr_invoke (df : DataFrame) (n : string) fn :
  n ≠ "items" → getattr (ODataFrame df) n = Some fn →
  ∃ cls, (cls = "Series" ∨ cls = "DataFrame")
         ∧ invoke fn = Raise (TypeError ("'" +:+ cls +:+ "' object is not callable")).
Proof.
  intros Hn. apply String.eqb_neq in Hn. simpl. rewrite Hn.
  destruct (positions n (columns df)) as [|j [|j' js]]; [done|..]; intros [= <-].
  - exists "Series". split; [by left|reflexivity].
  - exists "DataFrame". split; [by right|reflexivity].
Qed.

Lemma probe_statement_frame (df : DataFrame) (names : list string) :
  Forall (λ n, n ≠ "items") names →
  (∃ a, a ∈ names ∧ a ∈ columns df) →
  ∃ cls, (cls = "Series" ∨ cls = "DataFrame")
         ∧ probe_statement (ODataFrame df) names
           = Some (Raise (TypeError ("'" +:+ cls +:+ "' object is not callable"))).
Proof.
  induction 1 as [|n names Hn _ IH]; intros (a & Ha & Hcol).
  { by apply elem_of_nil in Ha. }
  cbn [probe_statement].
  destruct (getattr (ODataFrame df) n) as [fn|] eqn:Hget.
  - destruct (frame_attr_invoke _ _ _ Hn Hget) as (cls & Hcls & ->). by exists cls.
  - apply IH. exists a. split; [|done].
    apply elem_of_cons in Ha as [->|Ha]; [|done].
    by apply (frame_attr_none _ _ Hn) in Hget.
Qed.

Lemma statement_methods_not_items : Forall (λ n, n ≠ "items") statement_methods.
Proof. by repeat constructor. Qed.

(** [ensure_dataframe] returns a table as it is, under any label, so that
    coercing the result again changes nothing. *)
Lemma ensure_dataframe_keeps_tables (df : DataFrame) (name : string) :
  ensure_dataframe (ODataFrame df) name = Ok df
  ∧ (ensure_dataframe (ODataFrame df) name
       ≫= λ df', ensure_dataframe (ODataFrame df') name) = Ok df.
Proof. done. Qed.

(** [normalize_statement] returns a table none of whose columns is labelled
    like one of the methods it looks for, so that coercing the result again
    changes nothing. *)
Lemma normalize_statement_keeps_tables (df : DataFrame) :
  Forall (λ n, n ∉ columns df) statement_methods →
  normalize_statement (ODataFrame df) = Ok (ODataFrame df)
  ∧ (normalize_statement (ODataFrame df) ≫= normalize_statement) = Ok (ODataFrame df).
Proof.
  intros Hcols.
  assert (probe_statement (ODataFrame df) statement_methods = None) as Hprobe.
  { rewrite <- (app_nil_r statement_methods). apply probe_statement_app.
    pose proof statement_methods_not_items as Hnames.
    induction Hcols as [|n names Hn _ IH]; [done|].
    apply Forall_cons in Hnames as [Hitems Hnames].
    constructor; [by apply frame_attr_none|by apply IH]. }
  assert (normalize_statement (ODataFrame df) = Ok (ODataFrame df)) as Hrun.
  { unfold normalize_statement. cbn [call_of mbind outcome_bind]. by rewrite Hprobe. }
  split; [done|]. rewrite Hrun. exact Hrun.
Qed.

(** C8 (the code departs from it): on a table with a column labelled
    [get_dataframe], [to_pandas] or [to_dataframe], [ensure_dataframe]
    returns the table, its test for a table coming first, while
    [normalize_statement] looks the three names up before its own test for
    a table: pandas answers the name with the column, a Series (or a frame,
    when several columns carry the label), and calling it raises
    [TypeError]. The table is not returned. *)
Theorem normalize_statement_refuses_tables (df : DataFrame) (a : string) :
  a ∈ statement_methods →
  a ∈ columns df →
  (∀ name, ensure_dataframe (ODataFrame df) name = Ok df)
  ∧ ∃ cls, (cls = "Series" ∨ cls = "DataFrame")
           ∧ normalize_statement (ODataFrame df)
             = Raise (TypeError ("'" +:+ cls +:+ "' object is not callable")).
Proof.
  intros Ha Hcol. split; [done|].
  destruct (probe_statement_frame df statement_methods statement_methods_not_items)
    as (cls & Hcls & Hprobe); [by exists a|].
  exists cls. split; [done|].
  unfold normalize_statement. cbn [call_of mbind outcome_bind]. by rewrite Hprobe.
Qed.

(** X5: [normalize_statement] calls a callable statement once, with no
    argument. What the call raises comes out; a returned value that is not
    callable is treated as the statement itself would be, so that a returned
    table without a column labelled like one of the three methods is the
    result; and a returned value that is callable again, with none of the
    three methods, is not called a second time but refused by type. *)
Theorem normalize_statement_calls_once (cls : string) (attrs : list (string * pyobj))
    (vars : option (outcome DataFrame)) :
  (∀ e, normalize_statement (OObject cls attrs (Some (Raise e)) vars) = Raise e)
  ∧ (∀ v, call_of v = None →
          normalize_statement (OObject cls attrs (Some (Ok v)) vars)
          = normalize_statement v)
  ∧ (∀ df, Forall (λ n, n ∉ columns df) statement_methods →
           normalize_statement (OObject cls attrs (Some (Ok (ODataFrame df))) vars)
           = Ok (ODataFrame df))
  ∧ (∀ cls' attrs' called vars',
       Forall (λ n, getattr (OObject cls' attrs' (Some called) vars') n = None)
              statement_methods →
       normalize_statement
         (OObject cls attrs (Some (Ok (OObject cls' attrs' (Some called) vars'))) vars)
       = Raise (TypeError ("Unexpected statement type: <class '" +:+ cls' +:+ "'>"))).
Proof.
  split_and!.
  - done.
  - intros v Hv. unfold normalize_statement. cbn [call_of mbind outcome_bind].
    by rewrite Hv.
  - intros df Hcols.
    exact (proj1 (normalize_statement_keeps_tables df Hcols)).
  - intros cls' attrs' called vars' Hnone.
    pose proof (probe_statement_app _ statement_methods [] Hnone) as Hprobe.
    rewrite app_nil_r in Hprobe.
    unfold normalize_statement, call_of, mbind, outcome_bind. by rewrite Hprobe.
Qed.

(** ** More on [_normalize] *)

Lemma filter_other_labels (label : string) (cols : list string) :
  label ∉ cols → filter (λ c, c ≠ label) cols = cols.
Proof.
  induction cols as [|c cols IH]; [done|].
  rewrite not_elem_of_cons. intros [Hne Hrest].
  rewrite filter_cons_True by done. by rewrite IH.
Qed.

Lemma positions_from_filter (i j : nat) (label : string) (cols : list string) :
  positions_from i label cols = [i + j] →
  delete j cols = filter (λ c, c ≠ label) cols.
Proof.
  revert i j. induction cols as [|c cols IH]; intros i j; [done|].
  simpl. destruct (String.eqb c label) eqn:E; simpl.
  - apply String.eqb_eq in E as ->. intros [= Hj Hrest].
    assert (j = 0) as -> by lia. simpl.
    rewrite filter_cons_False by (by intros []).
    apply positions_from_nil in Hrest. by rewrite filter_other_labels.
  - apply String.eqb_neq in E. intros Hrest. destruct j as [|j].
    + assert (S i ≤ i + 0); [|lia].
      apply (positions_from_ge _ label cols). rewrite Hrest. by left.
    + simpl. rewrite filter_cons_True by done. f_equal.
      apply (IH (S i)). rewrite Hrest. f_equal. lia.
Qed.

Lemma normalize_columns (df df' : DataFrame) :
  _normalize df = Ok df' →
  columns df' = filter (λ c, c ≠ "period") (columns df).
Proof.
  unfold _normalize, has_column. case_bool_decide as Hcol; simpl.
  - unfold set_index, positions.
    destruct (positions_from 0 "period" (columns df)) as [|j [|j' js]] eqn:Hpos;
      [done| |done].
    simpl. intros [= <-]. simpl. by apply (positions_from_filter 0).
  - intros [= <-]. simpl. by rewrite filter_other_labels.
Qed.

Lemma normalize_body (df df' : DataFrame) :
  _normalize df = Ok df' →
  keyed_by_text df' ∧ length (body df') = length (body df).
Proof.
  unfold _normalize. intros Hrun.
  destruct (if has_column df "period" then set_index df "period" else Ok df)
    as [df1|e] eqn:Hfirst; [|done].
  simpl in Hrun. injection Hrun as <-. simpl. split.
  - unfold keyed_by_text, index. simpl. rewrite <- list_fmap_compose.
    apply Forall_fmap, Forall_forall. intros e _. simpl. by eexists.
  - rewrite length_fmap. destruct (has_column df "period").
    + unfold set_index in Hfirst.
      destruct (positions "period" (columns df)) as [|j [|j' js]]; [done| |done].
      injection Hfirst as <-. simpl. by rewrite length_fmap.
    + by injection Hfirst as <-.
Qed.

Lemma normalize_no_period (df df' : DataFrame) :
  _normalize df = Ok df' → has_column df' "period" = false.
Proof.
  intros Hrun. unfold has_column. rewrite (normalize_columns _ _ Hrun).
  apply bool_decide_eq_false. rewrite list_elem_of_filter. by intros [].
Qed.

(** X6: a table [_normalize] returns is keyed by texts only, has no column
    labelled "period" left and otherwise the columns it had, in their
    order, and has as many rows as before: rows with equal periods are all
    kept. *)
Theorem normalize_shape (df df' : DataFrame) :
  _normalize df = Ok df' →
  keyed_by_text df'
  ∧ columns df' = filter (λ c, c ≠ "period") (columns df)
  ∧ has_column df' "period" = false
  ∧ length (body df') = length (body df).
Proof.
  intros Hrun. destruct (normalize_body _ _ Hrun) as [Hkeys Hlen].
  split_and!; [done| | |done].
  - by apply normalize_columns.
  - by eapply normalize_no_period.
Qed.

(** X7: [_normalize] returns a table exactly when at most one column is
    labelled "period"; with several such columns pandas has no index data
    and [_normalize] raises. *)
Theorem normalize_returns_iff (df : DataFrame) :
  (∃ df', _normalize df = Ok df') ↔ one_period_column df.
Proof.
  unfold _normalize, one_period_column, has_column, set_index, positions.
  case_bool_decide as Hcol.
  - destruct (positions_from 0 "period" (columns df)) as [|j [|j' js]] eqn:Hpos; simpl.
    + split; [lia|]. intros _. by apply positions_from_nil in Hpos.
    + split; [lia|]. intros _. by eexists.
    + split; [by intros [? ?]|lia].
  - apply (positions_from_nil 0) in Hcol. rewrite Hcol. simpl.
    split; [lia|]. intros _. by eexists.
Qed.

(** X8: [_normalize] is idempotent: normalizing a table it returned gives
    that table again. *)
Theorem normalize_idempotent (df df' : DataFrame) :
  _normalize df = Ok df' → _normalize df' = Ok df'.
Proof.
  intros Hrun. destruct (normalize_body _ _ Hrun) as [Hkeys _].
  pose proof (normalize_no_period _ _ Hrun) as Hcol.
  unfold _normalize. rewrite Hcol. simpl. destruct df' as [cols rows]. simpl.
  f_equal. f_equal. unfold keyed_by_text, index in Hkeys. simpl in Hkeys.
  clear Hrun Hcol. induction rows as [|[k cells] rows IH]; [done|].
  rewrite fmap_cons in Hkeys. apply Forall_cons in Hkeys as [[s Hk] Hkeys].
  simpl in Hk. subst k. rewrite fmap_cons. simpl. f_equal. by apply IH.
Qed.

Lemma filter_two {A} (P : A → Prop) `{∀ x, Decision (P x)} (l : list A)
    (i1 i2 : nat) x1 x2 :
  i1 < i2 → l !! i1 = Some x1 → l !! i2 = Some x2 → P x1 → P x2 →
  2 ≤ length (filter P l).
Proof.
  intros Hlt H1 H2 HP1 HP2.
  rewrite <- (take_drop_middle l i1 x1 H1).
  assert (drop (S i1) l !! (i2 - S i1) = Some x2) as H2'.
  { rewrite lookup_drop. rewrite <- H2. f_equal. lia. }
  rewrite <- (take_drop_middle _ _ _ H2').
  rewrite filter_app, filter_cons_True, filter_app, filter_cons_True by done.
  rewrite length_app. simpl. rewrite length_app. simpl. lia.
Qed.

Lemma filter_twice {A} (P : A → Prop) `{∀ x, Decision (P x)} (l : list A)
    (i1 i2 : nat) x1 x2 :
  i1 ≠ i2 → l !! i1 = Some x1 → l !! i2 = Some x2 → P x1 → P x2 →
  2 ≤ length (filter P l).
Proof.
  intros Hne H1 H2 HP1 HP2. destruct (decide (i1 < i2)).
  - by eapply (filter_two P l i1 i2).
  - eapply (filter_two P l i2 i1); [lia|done..].
Qed.

(** Two rows under the text [p] make [loc] select a frame of at least two
    rows. *)
Lemma loc_repeated_key (df : DataFrame) (p : string) (i1 i2 : nat) cells1 cells2 :
  i1 ≠ i2 →
  body df !! i1 = Some (PStr p, cells1) →
  body df !! i2 = Some (PStr p, cells2) →
  ∃ sub, loc df p = Ok (Rows sub)
         ∧ 2 ≤ length sub
         ∧ Forall (λ cells, ∃ k, (k, cells) ∈ body df) sub.
Proof.
  intros Hne H1 H2. unfold loc.
  pose proof (filter_twice (λ e : pyval * list pyval, is_key p e.1) (body df)
                i1 i2 _ _ Hne H1 H2) as Hlen.
  assert (is_key p (PStr p)) as Hkey by (simpl; by rewrite String.eqb_refl).
  specialize (Hlen Hkey Hkey).
  assert (Forall (λ e, e ∈ body df)
            (filter (λ e : pyval * list pyval, is_key p e.1) (body df))) as Hsub.
  { apply Forall_forall. intros e He. by apply list_elem_of_filter in He as [_ He]. }
  destruct (filter _ (body df)) as [|e1 [|e2 es]]; simpl in Hlen; [lia..|].
  eexists. split; [done|]. split; [simpl; lia|].
  apply Forall_fmap. eapply Forall_impl; [done|].
  intros [k cells] He. simpl. by exists k.
Qed.

(** X10: [_normalize] keeps rows whose periods read as the same text, each
    under that text, and [loc] on the text then selects a frame of all of
    them (at least two rows), not one row. *)
Theorem normalize_keeps_repeated_periods (df df' : DataFrame) (j i1 i2 : nat)
    key1 cells1 v1 key2 cells2 v2 :
  positions "period" (columns df) = [j] →
  i1 ≠ i2 →
  body df !! i1 = Some (key1, cells1) → cells1 !! j = Some v1 →
  body df !! i2 = Some (key2, cells2) → cells2 !! j = Some v2 →
  py_str v1 = py_str v2 →
  _normalize df = Ok df' →
  ∃ sub, loc df' (py_str v1) = Ok (Rows sub) ∧ 2 ≤ length sub.
Proof.
  intros Hpos Hne H1 Hv1 H2 Hv2 Hsame. unfold _normalize.
  assert (has_column df "period" = true) as ->.
  { apply bool_decide_eq_true. destruct (decide ("period" ∈ columns df)); [done|].
    exfalso. assert (positions "period" (columns df) = []) as Hnil
      by by apply positions_from_nil.
    by rewrite Hnil in Hpos. }
  unfold set_index. rewrite Hpos. simpl. intros [= <-].
  destruct (loc_repeated_key
    {| columns := delete j (columns df);
       body := (λ e : pyval * list pyval, (PStr (py_str e.1), e.2)) <$>
               ((λ e : pyval * list pyval, (default PNone (e.2 !! j), delete j e.2))
                  <$> body df) |}
    (py_str v1) i1 i2 (delete j cells1) (delete j cells2) Hne)
    as (sub & Hloc & Hlen & _).
  - simpl. rewrite !list_lookup_fmap, H1. simpl. by rewrite Hv1.
  - simpl. rewrite !list_lookup_fmap, H2. simpl. by rewrite Hv2, Hsame.
  - by exists sub.
Qed.

(** ** More on the ratio operations *)

(** Under text keys a period that passes the membership test is found. *)
Lemma loc_keyed_by_text (df : DataFrame) (p : string) :
  keyed_by_text df → in_index p df = true → ∃ row, loc df p = Ok row.
Proof.
  unfold keyed_by_text, in_index, astype_str, index, loc. intros Hkeys Hp.
  apply bool_decide_eq_true in Hp.
  apply list_elem_of_fmap in Hp as (k & -> & Hk).
  rewrite Forall_forall in Hkeys. destruct (Hkeys k Hk) as [s ->]. simpl.
  apply list_elem_of_fmap in Hk as (e & He1 & He).
  assert (e ∈ filter (λ e : pyval * list pyval, is_key s e.1) (body df)) as Hin.
  { apply list_elem_of_filter. split; [|done]. rewrite <- He1. simpl.
    by rewrite String.eqb_refl. }
  destruct (filter _ (body df)) as [|e1 [|e2 es]]; [by apply elem_of_nil in Hin|..];
    by eexists.
Qed.

Lemma loc_raises (df : DataFrame) (p : string) e :
  loc df p = Raise e → e = KeyError (repr_str p).
Proof.
  unfold loc. destruct (filter _ (body df)) as [|e1 [|e2 es]]; [|done..].
  by intros [= <-].
Qed.

Lemma float_of_item_raises (it : item) e :
  float_of_item it = Raise e →
  caught e = true ∨ ∃ msg, e = OverflowError msg.
Proof.
  destruct it as [v|[|v [|v' vs]]|]; simpl; try (intros [= <-]; by left).
  - intros [?|(z & msg & _ & ->)]%py_float_raises; [by left|right; by eexists].
  - intros [?|(z & msg & _ & ->)]%py_float_raises; [by left|right; by eexists].
Qed.

Lemma conversion_raises (cols : list string) row (label : string) e :
  getitem cols row label ≫= float_of_item = Raise e →
  caught e = true ∨ ∃ msg, e = OverflowError msg.
Proof.
  destruct (getitem cols row label) as [it|e'] eqn:Hget; simpl.
  - apply float_of_item_raises.
  - intros [= <-]. left. unfold getitem in Hget.
    destruct (positions label cols) as [|j [|j' js]], row as [cells|sub];
      try done; try by injection Hget as <-.
    destruct (cells !! j); [done|]. by injection Hget as <-.
Qed.

Lemma current_ratio_turn_raises (bs : DataFrame) (p : string) e :
  current_ratio_turn bs p = Raise e →
  (e = KeyError (repr_str p) ∧ in_index p bs = true ∧ loc bs p = Raise e)
  ∨ ∃ msg, e = OverflowError msg.
Proof.
  unfold current_ratio_turn. destruct (in_index p bs) eqn:Hp; [|done]. simpl.
  destruct (loc bs p) as [row|e'] eqn:Hloc; simpl.
  - destruct (getitem _ row "current_assets" ≫= float_of_item) as [a|e1] eqn:Ha; simpl.
    + destruct (getitem _ row "current_liabilities" ≫= float_of_item)
        as [d|e2] eqn:Hd; simpl; [done|].
      destruct (caught e2) eqn:Hc; [done|]. intros [= <-]. right.
      destruct (conversion_raises _ _ _ _ Hd) as [?|?]; [congruence|done].
    + destruct (caught e1) eqn:Hc; [done|]. intros [= <-]. right.
      destruct (conversion_raises _ _ _ _ Ha) as [?|?]; [congruence|done].
  - intros [= <-]. left. by rewrite (loc_raises _ _ _ Hloc).
Qed.

Lemma return_on_assets_turn_raises (is_ bs : DataFrame) (p : string) e :
  return_on_assets_turn is_ bs p = Raise e →
  (e = KeyError (repr_str p) ∧ in_index p is_ = true ∧ in_index p bs = true
   ∧ (loc is_ p = Raise e ∨ loc bs p = Raise e))
  ∨ ∃ msg, e = OverflowError msg.
Proof.
  unfold return_on_assets_turn.
  destruct (in_index p is_) eqn:Hpi; [|done].
  destruct (in_index p bs) eqn:Hpb; [|done]. simpl.
  destruct (loc is_ p) as [ni_row|e'] eqn:Hni; simpl.
  - destruct (loc bs p) as [bs_row|e''] eqn:Hbs; simpl.
    + destruct (getitem _ ni_row "net_income" ≫= float_of_item) as [a|e1] eqn:Ha; simpl.
      * destruct (getitem _ bs_row "total_assets" ≫= float_of_item)
          as [d|e2] eqn:Hd; simpl; [done|].
        destruct (caught e2) eqn:Hc; [done|]. intros [= <-]. right.
        destruct (conversion_raises _ _ _ _ Hd) as [?|?]; [congruence|done].
      * destruct (caught e1) eqn:Hc; [done|]. intros [= <-]. right.
        destruct (conversion_raises _ _ _ _ Ha) as [?|?]; [congruence|done].
    + intros [= <-]. left. rewrite (loc_raises _ _ _ Hbs). auto.
  - intros [= <-]. left. rewrite (loc_raises _ _ _ Hni). auto.
Qed.

Lemma ratio_failures_cases self (h : store) is_ bs e :
  h !! income_stmt self = Some is_ →
  h !! balance_sheet self = Some bs →
  ((calculate_current_ratio self h).1 = Raise e →
     (missing_columns bs ["current_assets"; "current_liabilities"] ≠ []
      ∧ ∃ msg, e = ValueError msg)
     ∨ (¬ keyed_by_text bs
        ∧ ∃ p, p ∈ periods self ∧ in_index p bs = true ∧ e = KeyError (repr_str p))
     ∨ ∃ msg, e = OverflowError msg)
  ∧ ((calculate_return_on_assets self h).1 = Raise e →
     ((has_column is_ "net_income" = false ∨ has_column bs "total_assets" = false)
      ∧ ∃ msg, e = ValueError msg)
     ∨ (¬ (keyed_by_text is_ ∧ keyed_by_text bs)
        ∧ ∃ p, p ∈ periods self ∧ in_index p is_ = true ∧ in_index p bs = true
               ∧ e = KeyError (repr_str p))
     ∨ ∃ msg, e = OverflowError msg).
Proof.
  intros His Hbs. split.
  - rewrite (calculate_current_ratio_run _ _ _ Hbs). simpl.
    unfold _require_columns.
    destruct (missing_columns bs _) as [|c cs] eqn:Hmissing; simpl.
    + intros (q & Hq & [(-> & Hin & Hloc)|Hover]%current_ratio_turn_raises)%for_periods_raise;
        [|by right; right].
      right; left. split; [|by exists q].
      intros Hkeys. destruct (loc_keyed_by_text _ _ Hkeys Hin) as [row Hrow].
      congruence.
    + intros [= <-]. left. split; [done|by eexists].
  - rewrite (calculate_return_on_assets_run _ _ _ _ His Hbs). simpl.
    unfold _require_columns. rewrite !missing_columns_one.
    destruct (has_column is_ "net_income") eqn:Hni; simpl;
      [|intros [= <-]; left; split; [by left|by eexists]].
    destruct (has_column bs "total_assets") eqn:Hta; simpl;
      [|intros [= <-]; left; split; [by right|by eexists]].
    intros (q & Hq & [(-> & Hi & Hb & Hloc)|Hover]%return_on_assets_turn_raises)%for_periods_raise;
      [|by right; right].
    right; left. split; [|by exists q].
    intros [Hki Hkb].
    destruct (loc_keyed_by_text _ _ Hki Hi) as [row1 Hrow1].
    destruct (loc_keyed_by_text _ _ Hkb Hb) as [row2 Hrow2].
    destruct Hloc; congruence.
Qed.

(** X11: what the two ratio operations can raise. The current ratio raises
    the [ValueError] of its missing columns, or [KeyError] on a period of
    the period set that passes the membership test and that [loc] does not
    find, which does not happen on a balance sheet keyed by texts, or
    [OverflowError]; the return on assets likewise, over both its tables. *)
Theorem ratio_failures self (h : store) is_ bs e :
  h !! income_stmt self = Some is_ →
  h !! balance_sheet self = Some bs →
  ((calculate_current_ratio self h).1 = Raise e →
     (missing_columns bs ["current_assets"; "current_liabilities"] ≠ []
      ∧ ∃ msg, e = ValueError msg)
     ∨ (¬ keyed_by_text bs
        ∧ ∃ p, p ∈ periods self ∧ in_index p bs = true ∧ e = KeyError (repr_str p))
     ∨ ∃ msg, e = OverflowError msg)
  ∧ ((calculate_return_on_assets self h).1 = Raise e →
     ((has_column is_ "net_income" = false ∨ has_column bs "total_assets" = false)
      ∧ ∃ msg, e = ValueError msg)
     ∨ (¬ (keyed_by_text is_ ∧ keyed_by_text bs)
        ∧ ∃ p, p ∈ periods self ∧ in_index p is_ = true ∧ in_index p bs = true
               ∧ e = KeyError (repr_str p))
     ∨ ∃ msg, e = OverflowError msg).
Proof. apply ratio_failures_cases. Qed.

(** X12: when the row of a period is found, both cells convert and the
    denominator is not equal to zero, the turn of the period yields the
    quotient of the two floats, and the operation, when it returns, returns
    it; for the current ratio and for the return on assets. *)
Theorem nonzero_denominator_is_quotient :
  (∀ self (h : store) bs p row a d rs,
     h !! balance_sheet self = Some bs →
     p ∈ periods self →
     loc bs p = Ok row →
     getitem (columns bs) row "current_assets" ≫= float_of_item = Ok a →
     getitem (columns bs) row "current_liabilities" ≫= float_of_item = Ok d →
     (d =? 0)%float = false →
     (calculate_current_ratio self h).1 = Ok rs →
     let r := {| name := "Current Ratio"; period := p; result := (a / d)%float |} in
     current_ratio_turn bs p = Ok (Some r) ∧ r ∈ rs)
  ∧ (∀ self (h : store) is_ bs p ni_row bs_row a d rs,
     h !! income_stmt self = Some is_ →
     h !! balance_sheet self = Some bs →
     p ∈ periods self →
     loc is_ p = Ok ni_row →
     loc bs p = Ok bs_row →
     getitem (columns is_) ni_row "net_income" ≫= float_of_item = Ok a →
     getitem (columns bs) bs_row "total_assets" ≫= float_of_item = Ok d →
     (d =? 0)%float = false →
     (calculate_return_on_assets self h).1 = Ok rs →
     let r := {| name := "Return on Assets"; period := p; result := (a / d)%float |} in
     return_on_assets_turn is_ bs p = Ok (Some r) ∧ r ∈ rs).
Proof.
  split.
  - intros self h bs p row a d rs Hbs Hp Hloc Ha Hd Hnz Hrun r.
    assert (current_ratio_turn bs p = Ok (Some r)) as Hturn.
    { unfold current_ratio_turn.
      rewrite (loc_in_index _ _ _ Hloc), Hloc. simpl.
      rewrite Ha. simpl. rewrite Hd. simpl. by rewrite Hnz. }
    split; [done|]. revert Hrun.
    rewrite (calculate_current_ratio_run _ _ _ Hbs). simpl.
    destruct (_require_columns bs _ _); [|done]. simpl.
    intros Hrun. by eapply for_periods_elem_of.
  - intros self h is_ bs p ni_row bs_row a d rs His Hbs Hp Hni Hloc Ha Hd Hnz Hrun r.
    assert (return_on_assets_turn is_ bs p = Ok (Some r)) as Hturn.
    { unfold return_on_assets_turn.
      rewrite (loc_in_index _ _ _ Hni), (loc_in_index _ _ _ Hloc), Hni, Hloc. simpl.
      rewrite Ha. simpl. rewrite Hd. simpl. by rewrite Hnz. }
    split; [done|]. revert Hrun.
    rewrite (calculate_return_on_assets_run _ _ _ _ His Hbs). simpl.
    destruct (_require_columns is_ _ _); [|done]. simpl.
    destruct (_require_columns bs _ _); [|done]. simpl.
    intros Hrun. by eapply for_periods_elem_of.
Qed.

Lemma positions_from_lt (i : nat) (label : string) (cols : list string) (j : nat) :
  j ∈ positions_from i label cols → j < i + length cols.
Proof.
  revert i. induction cols as [|c cols IH]; intros i; simpl.
  { by intros ?%elem_of_nil. }
  rewrite elem_of_app. intros [Hj|Hj].
  - destruct (String.eqb c label); [|by apply elem_of_nil in Hj].
    apply list_elem_of_singleton in Hj. lia.
  - apply IH in Hj. lia.
Qed.

(** On a frame of several rows, as wide as the header, no cell converts:
    [row[label]] is a Series of several values or a frame, or the label is
    missing, and the failure is one the operations catch. *)
Lemma frame_conversion_caught (cols : list string) (sub : list (list pyval))
    (label : string) :
  2 ≤ length sub →
  Forall (λ cells, length cells = length cols) sub →
  ∃ e, getitem cols (Rows sub) label ≫= float_of_item = Raise e ∧ caught e = true.
Proof.
  intros Hlen Hwide. unfold getitem.
  destruct (positions label cols) as [|j [|j' js]] eqn:Hpos; simpl.
  - by eexists.
  - assert (j < length cols) as Hj.
    { apply (positions_from_lt 0 label). unfold positions in Hpos.
      rewrite Hpos. by left. }
    destruct sub as [|c1 [|c2 sub]]; simpl in Hlen; [lia..|].
    apply Forall_cons in Hwide as [Hc1 Hwide].
    apply Forall_cons in Hwide as [Hc2 Hwide].
    destruct (lookup_lt_is_Some_2 c1 j) as [v1 Hv1]; [lia|].
    destruct (lookup_lt_is_Some_2 c2 j) as [v2 Hv2]; [lia|].
    simpl. rewrite Hv1, Hv2. simpl. by eexists.
  - by eexists.
Qed.

(** X13: a period that is the key of two rows of a balance sheet whose
    rows are as wide as its header yields no current ratio and raises
    nothing: [loc] selects a frame, no cell of which converts. *)
Theorem repeated_key_is_skipped (bs : DataFrame) (p : string) (i1 i2 : nat)
    cells1 cells2 :
  well_formed bs →
  i1 ≠ i2 →
  body bs !! i1 = Some (PStr p, cells1) →
  body bs !! i2 = Some (PStr p, cells2) →
  current_ratio_turn bs p = Ok None.
Proof.
  intros Hwf Hne H1 H2.
  destruct (loc_repeated_key bs p i1 i2 _ _ Hne H1 H2) as (sub & Hloc & Hlen & Hsub).
  assert (Forall (λ cells, length cells = length (columns bs)) sub) as Hwide.
  { eapply Forall_impl; [done|]. intros cells [k Hk]. simpl.
    unfold well_formed in Hwf. rewrite Forall_forall in Hwf. apply (Hwf _ Hk). }
  unfold current_ratio_turn. rewrite (loc_in_index _ _ _ Hloc), Hloc. simpl.
  destruct (frame_conversion_caught (columns bs) sub "current_assets" Hlen Hwide)
    as (e & -> & Hcaught).
  simpl. by rewrite Hcaught.
Qed.

Lemma for_periods_sound turn (ps : list string) rs r :
  for_periods turn ps [] = Ok rs → r ∈ rs →
  ∃ p, p ∈ ps ∧ turn p = Ok (Some r).
Proof.
  revert rs. induction ps as [|p ps IH]; intros rs.
  { intros [= <-]. by intros ?%elem_of_nil. }
  rewrite for_periods_cons.
  destruct (turn p) as [o|e] eqn:Hp; simpl; [|done].
  destruct (for_periods turn ps []) as [rs'|e]; simpl; [|done].
  intros [= <-]. rewrite elem_of_app. intros [Hr|Hr].
  - destruct o as [r'|]; simpl in Hr; [|by apply elem_of_nil in Hr].
    apply list_elem_of_singleton in Hr as ->. exists p. split; [by left|done].
  - destruct (IH rs' eq_refl Hr) as (q & Hq & Hturn).
    exists q. split; [by right|done].
Qed.

Lemma current_ratio_turn_sound (bs : DataFrame) (p : string) r :
  current_ratio_turn bs p = Ok (Some r) →
  ∃ row a d,
    loc bs p = Ok row
    ∧ getitem (columns bs) row "current_assets" ≫= float_of_item = Ok a
    ∧ getitem (columns bs) row "current_liabilities" ≫= float_of_item = Ok d
    ∧ r = {| name := "Current Ratio"; period := p;
             result := if (d =? 0)%float then infinity else (a / d)%float |}.
Proof.
  unfold current_ratio_turn. destruct (in_index p bs); [|done]. simpl.
  destruct (loc bs p) as [row|e]; [|done]. simpl.
  destruct (getitem _ row "current_assets" ≫= float_of_item) as [a|e] eqn:Ha; simpl.
  - destruct (getitem _ row "current_liabilities" ≫= float_of_item) as [d|e] eqn:Hd;
      simpl.
    + intros [= <-]. exists row, a, d. by split_and!.
    + by destruct (caught e).
  - by destruct (caught e).
Qed.

Lemma return_on_assets_turn_sound (is_ bs : DataFrame) (p : string) r :
  return_on_assets_turn is_ bs p = Ok (Some r) →
  ∃ ni_row bs_row a d,
    loc is_ p = Ok ni_row ∧ loc bs p = Ok bs_row
    ∧ getitem (columns is_) ni_row "net_income" ≫= float_of_item = Ok a
    ∧ getitem (columns bs) bs_row "total_assets" ≫= float_of_item = Ok d
    ∧ r = {| name := "Return on Assets"; period := p;
             result := if (d =? 0)%float then infinity else (a / d)%float |}.
Proof.
  unfold return_on_assets_turn. destruct (_ || _); [done|].
  destruct (loc is_ p) as [ni_row|e]; [|done]. simpl.
  destruct (loc bs p) as [bs_row|e]; [|done]. simpl.
  destruct (getitem _ ni_row "net_income" ≫= float_of_item) as [a|e] eqn:Ha; simpl.
  - destruct (getitem _ bs_row "total_assets" ≫= float_of_item) as [d|e] eqn:Hd; simpl.
    + intros [= <-]. exists ni_row, bs_row, a, d. by split_and!.
    + by destruct (caught e).
  - by destruct (caught e).
Qed.

(** X14: every result either operation returns is that of a period of the
    period set whose row [loc] found: it carries the name of the operation
    and the period, and its value is computed from the two converted cells
    of that row, infinity under a zero denominator and their quotient
    otherwise. *)
Theorem results_are_sound self (h : store) is_ bs :
  h !! income_stmt self = Some is_ →
  h !! balance_sheet self = Some bs →
  (∀ rs r, (calculate_current_ratio self h).1 = Ok rs → r ∈ rs →
     period r ∈ periods self
     ∧ ∃ row a d,
         loc bs (period r) = Ok row
         ∧ getitem (columns bs) row "current_assets" ≫= float_of_item = Ok a
         ∧ getitem (columns bs) row "current_liabilities" ≫= float_of_item = Ok d
         ∧ r = {| name := "Current Ratio"; period := period r;
                  result := if (d =? 0)%float then infinity else (a / d)%float |})
  ∧ (∀ rs r, (calculate_return_on_assets self h).1 = Ok rs → r ∈ rs →
     period r ∈ periods self
     ∧ ∃ ni_row bs_row a d,
         loc is_ (period r) = Ok ni_row ∧ loc bs (period r) = Ok bs_row
         ∧ getitem (columns is_) ni_row "net_income" ≫= float_of_item = Ok a
         ∧ getitem (columns bs) bs_row "total_assets" ≫= float_of_item = Ok d
         ∧ r = {| name := "Return on Assets"; period := period r;
                  result := if (d =? 0)%float then infinity else (a / d)%float |}).
Proof.
  intros His Hbs. split.
  - intros rs r. rewrite (calculate_current_ratio_run _ _ _ Hbs). simpl.
    destruct (_require_columns bs _ _); [|done]. simpl. intros Hrun Hr.
    destruct (for_periods_sound _ _ _ _ Hrun Hr) as (p & Hp & Hturn).
    rewrite (current_ratio_turn_period _ _ _ Hturn).
    split; [done|]. by apply current_ratio_turn_sound.
  - intros rs r. rewrite (calculate_return_on_assets_run _ _ _ _ His Hbs). simpl.
    destruct (_require_columns is_ _ _); [|done]. simpl.
    destruct (_require_columns bs _ _); [|done]. simpl. intros Hrun Hr.
    destruct (for_periods_sound _ _ _ _ Hrun Hr) as (p & Hp & Hturn).
    rewrite (return_on_assets_turn_period _ _ _ _ Hturn).
    split; [done|]. by apply return_on_assets_turn_sound.
Qed.

(** ** More on the constructor *)

Lemma copy_live (r : ref) (h : store) df :
  h !! r = Some df → copy r h = (Ok (length h), h ++ [df]).
Proof. intros Hr. unfold copy. by rewrite Hr. Qed.

Lemma promote_period_ok (r : ref) (h h' : store) u :
  promote_period r h = (Ok u, h') →
  ∃ df df', h !! r = Some df ∧ promoted df = Ok df' ∧ h' = <[r:=df']> h.
Proof.
  unfold promote_period, promoted. intros Hrun.
  apply bind_ok in Hrun as (df & h1 & [-> Hdf]%deref_ok & Hrun).
  exists df. destruct (has_column df "period").
  - unfold set_index_inplace in Hrun. rewrite Hdf in Hrun.
    destruct (set_index df "period") as [df'|e]; [|done].
    injection Hrun as _ <-. by exists df'.
  - injection Hrun as _ <-. exists df. split_and!; [done..|].
    by rewrite list_insert_id.
Qed.

Lemma init_ok_frames (bs is_ : ref) (cf : option ref) (ps : option (list string))
    (h h' : store) self b i :
  h !! bs = Some b →
  h !! is_ = Some i →
  (∀ r, cf = Some r → r < length h) →
  __init__ bs is_ cf ps h = (Ok self, h') →
  ∃ bsf isf cff,
    promoted b = Ok bsf
    ∧ promoted i = Ok isf
    ∧ match cf with
      | Some r => ∃ c cf', h !! r = Some c ∧ promoted c = Ok cf' ∧ cff = [cf']
      | None => cff = []
      end
    ∧ balance_sheet self = length h
    ∧ income_stmt self = S (length h)
    ∧ cash_flow self = (λ _, S (S (length h))) <$> cf
    ∧ h' = h ++ bsf :: isf :: cff.
Proof.
  intros Hb Hi Hcf. unfold __init__. intros Hrun.
  apply bind_ok in Hrun as (rb & h1 & Hcopy & Hrun).
  rewrite (copy_live _ _ _ Hb) in Hcopy. injection Hcopy as <- <-.
  apply bind_ok in Hrun as (ri & h2 & Hcopy & Hrun).
  rewrite (copy_live _ _ i) in Hcopy
    by (rewrite lookup_app_l; [done|by eapply lookup_lt_Some]).
  injection Hcopy as <- <-. rewrite length_app in Hrun. simpl in Hrun.
  replace (length h + 1) with (S (length h)) in Hrun by lia.
  rewrite <- app_assoc in Hrun. simpl in Hrun.
  apply bind_ok in Hrun as (oc & h3 & Hcash & Hrun).
  apply bind_ok in Hrun as ([] & h4 & Hloop & Hrun).
  apply bind_ok in Hrun as (found & h5 & Hps & Hrun).
  injection Hrun as <- <-.
  assert (h5 = h4) as ->.
  { destruct ps as [given|]; [by injection Hps as _ <-|].
    apply bind_ok in Hps as (bsf & h6 & [-> _]%deref_ok & Hps).
    apply bind_ok in Hps as (isf & h7 & [-> _]%deref_ok & Hps).
    by injection Hps as _ <-. }
  clear Hps. simpl. destruct cf as [r|].
  - apply bind_ok in Hcash as (rc & h6 & Hcopy & Hret).
    injection Hret as <- <-.
    destruct (lookup_lt_is_Some_2 h r) as [c Hc]; [by apply Hcf|].
    rewrite (copy_live _ _ c) in Hcopy
      by (rewrite lookup_app_l; [done|by eapply lookup_lt_Some]).
    injection Hcopy as <- <-.
    rewrite length_app in Hloop. simpl in Hloop.
    replace (length h + 2) with (S (S (length h))) in Hloop by lia.
    rewrite <- app_assoc in Hloop. simpl in Hloop.
    apply bind_ok in Hloop as ([] & h7 & Hp1 & Hloop).
    apply bind_ok in Hloop as ([] & h8 & Hp2 & Hloop).
    apply bind_ok in Hloop as ([] & h9 & Hp3 & Hloop).
    injection Hloop as <-.
    apply promote_period_ok in Hp1 as (b' & bsf & Hb' & Hbsf & ->).
    rewrite lookup_app_r, Nat.sub_diag in Hb' by lia. injection Hb' as <-.
    rewrite insert_app_r_alt, Nat.sub_diag in Hp2 by lia. simpl in Hp2.
    apply promote_period_ok in Hp2 as (i' & isf & Hi' & Hisf & ->).
    rewrite lookup_app_r in Hi' by lia.
    replace (S (length h) - length h) with 1 in Hi' by lia. injection Hi' as <-.
    rewrite insert_app_r_alt in Hp3 by lia.
    replace (S (length h) - length h) with 1 in Hp3 by lia. simpl in Hp3.
    apply promote_period_ok in Hp3 as (c' & cf' & Hc' & Hcf' & ->).
    rewrite lookup_app_r in Hc' by lia.
    replace (S (S (length h)) - length h) with 2 in Hc' by lia. injection Hc' as <-.
    rewrite insert_app_r_alt by lia.
    replace (S (S (length h)) - length h) with 2 by lia. simpl.
    exists bsf, isf, [cf']. split_and!; try done.
    + by exists c, cf'.
    + rewrite length_app. simpl. f_equal. lia.
  - injection Hcash as <- <-. simpl in Hloop.
    apply bind_ok in Hloop as ([] & h7 & Hp1 & Hloop).
    apply bind_ok in Hloop as ([] & h8 & Hp2 & Hloop).
    injection Hloop as <-.
    apply promote_period_ok in Hp1 as (b' & bsf & Hb' & Hbsf & ->).
    rewrite lookup_app_r, Nat.sub_diag in Hb' by lia. injection Hb' as <-.
    rewrite insert_app_r_alt, Nat.sub_diag in Hp2 by lia. simpl in Hp2.
    apply promote_period_ok in Hp2 as (i' & isf & Hi' & Hisf & ->).
    rewrite lookup_app_r in Hi' by lia.
    replace (S (length h) - length h) with 1 in Hi' by lia. injection Hi' as <-.
    rewrite insert_app_r_alt by lia.
    replace (S (length h) - length h) with 1 by lia. simpl.
    by exists bsf, isf, [].
Qed.

Lemma bind_run {A B} (m : M A) (f : A → M B) (h h1 : store) (a : A) :
  m h = (Ok a, h1) → (m ≫= f) h = f a h1.
Proof. intros Hm. unfold mbind, M_bind. by rewrite Hm. Qed.

Lemma promote_period_run (r : ref) (h : store) df df' :
  h !! r = Some df → promoted df = Ok df' →
  promote_period r h = (Ok (), <[r:=df']> h).
Proof.
  intros Hr Hp. unfold promote_period.
  rewrite (bind_run _ _ h h df) by (unfold deref; by rewrite Hr).
  unfold promoted in Hp. destruct (has_column df "period").
  - unfold set_index_inplace. by rewrite Hr, Hp.
  - injection Hp as <-. by rewrite list_insert_id.
Qed.

Lemma promoted_returns_iff (df : DataFrame) :
  (∃ df', promoted df = Ok df') ↔ one_period_column df.
Proof.
  unfold promoted, one_period_column, has_column, set_index, positions.
  case_bool_decide as Hcol.
  - destruct (positions_from 0 "period" (columns df)) as [|j [|j' js]] eqn:Hpos; simpl.
    + split; [lia|]. intros _. by apply positions_from_nil in Hpos.
    + split; [lia|]. intros _. by eexists.
    + split; [by intros [? ?]|lia].
  - apply (positions_from_nil 0) in Hcol. rewrite Hcol. simpl.
    split; [lia|]. intros _. by eexists.
Qed.

(** The constructor run forward on frames it can promote. *)
Lemma init_run (bs is_ : ref) (cf : option ref) (ps : option (list string))
    (h : store) b i bsf isf cff :
  h !! bs = Some b →
  h !! is_ = Some i →
  promoted b = Ok bsf →
  promoted i = Ok isf →
  match cf with
  | Some r => ∃ c cf', h !! r = Some c ∧ promoted c = Ok cf' ∧ cff = [cf']
  | None => cff = []
  end →
  __init__ bs is_ cf ps h =
    (Ok {| balance_sheet := length h;
           income_stmt := S (length h);
           cash_flow := (λ _, S (S (length h))) <$> cf;
           periods := match ps with
                      | Some given => given
                      | None => common_periods bsf isf
                      end |},
     h ++ bsf :: isf :: cff).
Proof.
  intros Hb Hi Hbsf Hisf Hcf. unfold __init__.
  rewrite (bind_run _ _ _ _ _ (copy_live _ _ _ Hb)).
  rewrite (bind_run _ _ _ (h ++ [b; i]) (S (length h))).
  2:{ rewrite (copy_live _ _ i)
        by (rewrite lookup_app_l; [done|by eapply lookup_lt_Some]).
      rewrite length_app, <- app_assoc. simpl. do 2 f_equal. lia. }
  assert (∀ (l : store) x, (h ++ x :: l) !! length h = Some x) as Hget0.
  { intros l x. by rewrite lookup_app_r, Nat.sub_diag by lia. }
  assert (∀ (l : store) x y, (h ++ x :: y :: l) !! S (length h) = Some y) as Hget1.
  { intros l x y. rewrite lookup_app_r by lia.
    by replace (S (length h) - length h) with 1 by lia. }
  assert (∀ (l : store) x y, <[length h:=y]> (h ++ x :: l) = h ++ y :: l) as Hset0.
  { intros l x y. by rewrite insert_app_r_alt, Nat.sub_diag by lia. }
  assert (∀ (l : store) x y z,
            <[S (length h):=z]> (h ++ x :: y :: l) = h ++ x :: z :: l) as Hset1.
  { intros l x y z. rewrite insert_app_r_alt by lia.
    by replace (S (length h) - length h) with 1 by lia. }
  destruct cf as [r|].
  - destruct Hcf as (c & cf' & Hc & Hcf' & ->).
    rewrite (bind_run _ _ _ (h ++ [b; i; c]) (Some (S (S (length h))))).
    2:{ rewrite (bind_run _ _ _ (h ++ [b; i; c]) (S (S (length h)))); [done|].
        rewrite (copy_live _ _ c)
          by (rewrite lookup_app_l; [done|by eapply lookup_lt_Some]).
        rewrite length_app, <- app_assoc. simpl. do 2 f_equal. lia. }
    rewrite (bind_run _ _ _ (h ++ [bsf; isf; cf']) ()).
    2:{ simpl.
        rewrite (bind_run _ _ _ (h ++ [bsf; i; c]) ()).
        2:{ rewrite (promote_period_run _ _ b bsf); [|apply Hget0|done].
            f_equal. apply Hset0. }
        rewrite (bind_run _ _ _ (h ++ [bsf; isf; c]) ()).
        2:{ rewrite (promote_period_run _ _ i isf); [|apply Hget1|done].
            f_equal. apply Hset1. }
        rewrite (bind_run _ _ _ (h ++ [bsf; isf; cf']) ()); [done|].
        rewrite (promote_period_run _ _ c cf'); [| |done].
        - f_equal. rewrite insert_app_r_alt by lia.
          by replace (S (S (length h)) - length h) with 2 by lia.
        - rewrite lookup_app_r by lia.
          by replace (S (S (length h)) - length h) with 2 by lia. }
    destruct ps as [given|]; [done|].
    rewrite (bind_run _ _ _ (h ++ [bsf; isf; cf']) (common_periods bsf isf)); [done|].
    rewrite (bind_run _ _ _ (h ++ [bsf; isf; cf']) bsf)
      by (unfold deref; by rewrite Hget0).
    rewrite (bind_run _ _ _ (h ++ [bsf; isf; cf']) isf)
      by (unfold deref; by rewrite Hget1).
    done.
  - subst cff. rewrite (bind_run _ _ _ (h ++ [b; i]) None) by done.
    rewrite (bind_run _ _ _ (h ++ [bsf; isf]) ()).
    2:{ simpl.
        rewrite (bind_run _ _ _ (h ++ [bsf; i]) ()).
        2:{ rewrite (promote_period_run _ _ b bsf); [|apply Hget0|done].
            f_equal. apply Hset0. }
        rewrite (bind_run _ _ _ (h ++ [bsf; isf]) ()); [done|].
        rewrite (promote_period_run _ _ i isf); [|apply Hget1|done].
        f_equal. apply Hset1. }
    destruct ps as [given|]; [done|].
    rewrite (bind_run _ _ _ (h ++ [bsf; isf]) (common_periods bsf isf)); [done|].
    rewrite (bind_run _ _ _ (h ++ [bsf; isf]) bsf)
      by (unfold deref; by rewrite Hget0).
    rewrite (bind_run _ _ _ (h ++ [bsf; isf]) isf)
      by (unfold deref; by rewrite Hget1).
    done.
Qed.

(** X15: when the constructor returns, the store is the caller's store
    followed by the analyzer's frames, in the order balance sheet, income
    statement, cash flow if one was given, and the analyzer refers to these.
    Each is the given frame with its "period" column, if it has one, made
    the row keys and taken out of the header, and is the given frame itself
    otherwise: the row keys are not cast to [str]. *)
Theorem init_frames (bs is_ : ref) (cf : option ref) (ps : option (list string))
    (h h' : store) self b i :
  h !! bs = Some b →
  h !! is_ = Some i →
  (∀ r, cf = Some r → r < length h) →
  __init__ bs is_ cf ps h = (Ok self, h') →
  ∃ bsf isf cff,
    promoted b = Ok bsf
    ∧ promoted i = Ok isf
    ∧ match cf with
      | Some r => ∃ c cf', h !! r = Some c ∧ promoted c = Ok cf' ∧ cff = [cf']
      | None => cff = []
      end
    ∧ balance_sheet self = length h
    ∧ income_stmt self = S (length h)
    ∧ cash_flow self = (λ _, S (S (length h))) <$> cf
    ∧ h' = h ++ bsf :: isf :: cff.
Proof. apply init_ok_frames. Qed.

(** X16: on live references, the constructor returns exactly when each
    frame it is given has at most one column labelled "period"; it raises
    when one of them has several. *)
Theorem init_returns_iff (bs is_ : ref) (cf : option ref) (ps : option (list string))
    (h : store) b i :
  h !! bs = Some b →
  h !! is_ = Some i →
  (∀ r, cf = Some r → r < length h) →
  (∃ self h', __init__ bs is_ cf ps h = (Ok self, h'))
  ↔ one_period_column b ∧ one_period_column i
    ∧ ∀ r c, cf = Some r → h !! r = Some c → one_period_column c.
Proof.
  intros Hb Hi Hcf. split.
  - intros (self & h' & Hrun).
    destruct (init_ok_frames _ _ _ _ _ _ _ _ _ Hb Hi Hcf Hrun)
      as (bsf & isf & cff & Hbsf & Hisf & Hcff & _).
    split_and!.
    + apply promoted_returns_iff. by exists bsf.
    + apply promoted_returns_iff. by exists isf.
    + intros r c -> Hc. destruct Hcff as (c' & cf' & Hc' & Hcf' & _).
      rewrite Hc in Hc'. injection Hc' as <-.
      apply promoted_returns_iff. by exists cf'.
  - intros (Hob & Hoi & Hoc).
    apply promoted_returns_iff in Hob as [bsf Hbsf].
    apply promoted_returns_iff in Hoi as [isf Hisf].
    destruct cf as [r|].
    + destruct (lookup_lt_is_Some_2 h r) as [c Hc]; [by apply Hcf|].
      destruct (proj2 (promoted_returns_iff c) (Hoc r c eq_refl Hc)) as [cf' Hcf'].
      eexists _, _. apply (init_run _ _ _ _ _ b i bsf isf [cf']); try done.
      by exists c, cf'.
    + eexists _, _. by apply (init_run _ _ _ _ _ b i bsf isf []).
Qed.

(** ** Fetching and preparing *)

Lemma outcome_bind_ok {A B} (m : outcome A) (f : A → outcome B) (b : B) :
  m ≫= f = Ok b → ∃ a, m = Ok a ∧ f a = Ok b.
Proof. destruct m as [a|e]; [|done]. intros Hf. by exists a. Qed.

Section ProviderProperties.

Variable latest : string → string → outcome pyobj.

Lemma fetch_ok (ticker filing_type : string) (prefer_edgar : bool) bs is_ cf :
  fetch_and_prepare_statements latest ticker filing_type prefer_edgar = Ok (bs, is_, cf) →
  ∃ filing xb statements bs_obj is_obj cf_obj bs_df is_df,
    latest ticker filing_type = Ok filing ∧ filing ≠ ONone
    ∧ call_method filing "xbrl" = Ok xb
    ∧ get_attribute xb "statements" = Ok statements
    ∧ call_method statements "balance_sheet" = Ok bs_obj
    ∧ call_method statements "income_statement" = Ok is_obj
    ∧ cash_flow_of statements = Ok cf_obj
    ∧ ensure_dataframe bs_obj "balance_sheet" = Ok bs_df
    ∧ ensure_dataframe is_obj "income_statement" = Ok is_df
    ∧ _normalize bs_df = Ok bs
    ∧ _normalize is_df = Ok is_
    ∧ match cf with
      | None => cf_obj = ONone
      | Some cf' =>
          cf_obj ≠ ONone
          ∧ ∃ cf_df, ensure_dataframe cf_obj "cash_flow" = Ok cf_df
                     ∧ _normalize cf_df = Ok cf'
      end.
Proof.
  unfold fetch_and_prepare_statements. intros Hrun.
  apply outcome_bind_ok in Hrun as (filing & Hfiling & Hrun).
  assert (filing ≠ ONone) as Hsome by (by intros ->).
  assert ((xb ← call_method filing "xbrl";
           statements ← get_attribute xb "statements";
           bs_obj ← call_method statements "balance_sheet";
           is_obj ← call_method statements "income_statement";
           cf_obj ← cash_flow_of statements;
           bs_df ← ensure_dataframe bs_obj "balance_sheet";
           is_df ← ensure_dataframe is_obj "income_statement";
           cf_df ← match cf_obj with
                   | ONone => Ok None
                   | _ => Some <$> ensure_dataframe cf_obj "cash_flow"
                   end;
           bs_df ← _normalize bs_df;
           is_df ← _normalize is_df;
           cf_df ← match cf_df with
                   | Some df => Some <$> _normalize df
                   | None => Ok None
                   end;
           Ok (bs_df, is_df, cf_df)) = Ok (bs, is_, cf)) as Hrest
    by (by destruct filing).
  clear Hrun.
  apply outcome_bind_ok in Hrest as (xb & Hxb & Hrest).
  apply outcome_bind_ok in Hrest as (statements & Hst & Hrest).
  apply outcome_bind_ok in Hrest as (bs_obj & Hbs & Hrest).
  apply outcome_bind_ok in Hrest as (is_obj & His & Hrest).
  apply outcome_bind_ok in Hrest as (cf_obj & Hcf & Hrest).
  apply outcome_bind_ok in Hrest as (bs_df & Hbsdf & Hrest).
  apply outcome_bind_ok in Hrest as (is_df & Hisdf & Hrest).
  apply outcome_bind_ok in Hrest as (cf_df & Hcfdf & Hrest).
  apply outcome_bind_ok in Hrest as (bs' & Hnbs & Hrest).
  apply outcome_bind_ok in Hrest as (is' & Hnis & Hrest).
  apply outcome_bind_ok in Hrest as (cf' & Hncf & Hrest).
  injection Hrest as -> -> ->.
  exists filing, xb, statements, bs_obj, is_obj, cf_obj, bs_df, is_df.
  split_and!; try done.
  destruct cf_df as [cf_df|].
  - destruct (_normalize cf_df) as [n|e] eqn:Hn; [|done].
    injection Hncf as <-.
    destruct (ensure_dataframe cf_obj "cash_flow") as [d|e] eqn:Hd.
    + destruct cf_obj; try done; injection Hcfdf as ->;
        (split; [done|by exists cf_df]).
    + by destruct cf_obj.
  - injection Hncf as <-.
    destruct cf_obj; try done;
      by destruct (ensure_dataframe _ "cash_flow").
Qed.

(** X18: [fetch_and_prepare_statements] returns tables only when a filing
    was found, and the tables it returns, the cash flow if there is one,
    are keyed by texts and have no "period" column. *)
Theorem fetched_tables_are_keyed (ticker filing_type : string) (prefer_edgar : bool)
    bs is_ cf :
  fetch_and_prepare_statements latest ticker filing_type prefer_edgar = Ok (bs, is_, cf) →
  (∃ filing, latest ticker filing_type = Ok filing ∧ filing ≠ ONone)
  ∧ keyed_by_text bs ∧ has_column bs "period" = false
  ∧ keyed_by_text is_ ∧ has_column is_ "period" = false
  ∧ match cf with
    | Some cf' => keyed_by_text cf' ∧ has_column cf' "period" = false
    | None => True
    end.
Proof.
  intros (filing & xb & statements & bs_obj & is_obj & cf_obj & bs_df & is_df
          & Hfiling & Hsome & _ & _ & _ & _ & _ & _ & _ & Hbs & His & Hcf)%fetch_ok.
  destruct (normalize_body _ _ Hbs) as [? _].
  destruct (normalize_body _ _ His) as [? _].
  split_and!; try done; [by exists filing|by eapply normalize_no_period..|].
  destruct cf as [cf'|]; [|done].
  destruct Hcf as (_ & cf_df & _ & Hn).
  destruct (normalize_body _ _ Hn) as [? _].
  split; [done|by eapply normalize_no_period].
Qed.

(** X19: the cash flow in [fetch_and_prepare_statements]. When
    [cashflow_statement()] raises and the statements have no callable
    [cash_flow], the failure is dropped and the result, if the balance sheet
    and the income statement coerce and normalize, comes without cash flow
    table. When [cash_flow] is callable and raises too, its exception
    comes out and nothing is fetched. *)
Theorem cash_flow_degrades (ticker filing_type : string) (prefer_edgar : bool)
    (filing xb statements bs_obj is_obj : pyobj) (e : exn) :
  latest ticker filing_type = Ok filing → filing ≠ ONone →
  call_method filing "xbrl" = Ok xb →
  get_attribute xb "statements" = Ok statements →
  call_method statements "balance_sheet" = Ok bs_obj →
  call_method statements "income_statement" = Ok is_obj →
  call_method statements "cashflow_statement" = Raise e →
  ((getattr statements "cash_flow" = None
    ∨ ∃ v, getattr statements "cash_flow" = Some v ∧ call_of v = None) →
   fetch_and_prepare_statements latest ticker filing_type prefer_edgar =
     (bs_df ← ensure_dataframe bs_obj "balance_sheet";
      is_df ← ensure_dataframe is_obj "income_statement";
      bs ← _normalize bs_df;
      is_ ← _normalize is_df;
      Ok (bs, is_, None)))
  ∧ (∀ fn e', getattr statements "cash_flow" = Some fn →
       call_of fn = Some (Raise e') →
       fetch_and_prepare_statements latest ticker filing_type prefer_edgar = Raise e').
Proof.
  intros Hfiling Hsome Hxb Hst Hbs His Hcf.
  assert (fetch_and_prepare_statements latest ticker filing_type prefer_edgar =
          (cf_obj ← cash_flow_of statements;
           bs_df ← ensure_dataframe bs_obj "balance_sheet";
           is_df ← ensure_dataframe is_obj "income_statement";
           cf_df ← match cf_obj with
                   | ONone => Ok None
                   | _ => Some <$> ensure_dataframe cf_obj "cash_flow"
                   end;
           bs_df ← _normalize bs_df;
           is_df ← _normalize is_df;
           cf_df ← match cf_df with
                   | Some df => Some <$> _normalize df
                   | None => Ok None
                   end;
           Ok (bs_df, is_df, cf_df))) as ->.
  { unfold fetch_and_prepare_statements. rewrite Hfiling. simpl.
    destruct filing; try done; simpl; by rewrite Hxb; simpl; rewrite Hst; simpl;
      rewrite Hbs; simpl; rewrite His. }
  unfold cash_flow_of. rewrite Hcf. split.
  - intros Hnone.
    assert (match getattr statements "cash_flow" with
            | Some fn => match call_of fn with
                         | Some called => called
                         | None => Ok ONone
                         end
            | None => Ok ONone
            end = Ok ONone) as ->.
    { by destruct Hnone as [-> | (v & -> & ->)]. }
    simpl.
    destruct (ensure_dataframe bs_obj "balance_sheet") as [bs_df|]; simpl; [|done].
    destruct (ensure_dataframe is_obj "income_statement") as [is_df|]; simpl; [|done].
    destruct (_normalize bs_df) as [bs'|]; simpl; [|done].
    by destruct (_normalize is_df).
  - intros fn e' -> ->. done.
Qed.

End ProviderProperties.

Section Pipeline.

Variable latest : string → string → outcome pyobj.

Lemma promoted_without_period (df : DataFrame) :
  has_column df "period" = false → promoted df = Ok df.
Proof. intros Hcol. unfold promoted. by rewrite Hcol. Qed.

(** X17: the tables [fetch_and_prepare_statements] returns suit the
    analyzer. Its constructor returns on them, its frames are equal to the
    tables, and on this analyzer neither ratio operation raises [KeyError]:
    what they raise is the [ValueError] of a missing column or
    [OverflowError]. *)
Theorem fetched_tables_suit_the_analyzer (ticker filing_type : string)
    (prefer_edgar : bool) bs is_ cf (ps : option (list string)) :
  fetch_and_prepare_statements latest ticker filing_type prefer_edgar = Ok (bs, is_, cf) →
  let h := bs :: is_ :: option_list cf in
  ∃ self,
    __init__ 0 1 ((λ _, 2) <$> cf) ps h = (Ok self, h ++ h)
    ∧ (∀ e, (calculate_current_ratio self (h ++ h)).1 = Raise e →
            (∃ msg, e = ValueError msg) ∨ (∃ msg, e = OverflowError msg))
    ∧ (∀ e, (calculate_return_on_assets self (h ++ h)).1 = Raise e →
            (∃ msg, e = ValueError msg) ∨ (∃ msg, e = OverflowError msg)).
Proof.
  intros (filing & xb & statements & bs_obj & is_obj & cf_obj & bs_df & is_df
          & _ & _ & _ & _ & _ & _ & _ & _ & _ & Hbs & His & Hcf)%fetch_ok h.
  destruct (normalize_body _ _ Hbs) as [Hkb _].
  destruct (normalize_body _ _ His) as [Hki _].
  pose proof (promoted_without_period _ (normalize_no_period _ _ Hbs)) as Hpb.
  pose proof (promoted_without_period _ (normalize_no_period _ _ His)) as Hpi.
  eexists. split_and!.
  - apply (init_run 0 1 _ ps h bs is_ bs is_ (option_list cf)); try done.
    destruct cf as [cf'|]; [|done]. simpl.
    destruct Hcf as (_ & cf_df & _ & Hn).
    exists cf', cf'. split_and!; [done| |done].
    by apply promoted_without_period, (normalize_no_period cf_df).
  - intros e He.
    assert ((h ++ h) !! S (length h) = Some is_) as Hi.
    { rewrite lookup_app_r by lia. by replace (S (length h) - length h) with 1 by lia. }
    assert ((h ++ h) !! length h = Some bs) as Hb.
    { by rewrite lookup_app_r, Nat.sub_diag by lia. }
    match type of He with
    | (calculate_current_ratio ?s _).1 = _ =>
        destruct (proj1 (ratio_failures_cases s (h ++ h) is_ bs e Hi Hb) He)
          as [[_ ?]|[[Hno _]|?]]; [by left|done|by right]
    end.
  - intros e He.
    assert ((h ++ h) !! S (length h) = Some is_) as Hi.
    { rewrite lookup_app_r by lia. by replace (S (length h) - length h) with 1 by lia. }
    assert ((h ++ h) !! length h = Some bs) as Hb.
    { by rewrite lookup_app_r, Nat.sub_diag by lia. }
    match type of He with
    | (calculate_return_on_assets ?s _).1 = _ =>
        destruct (proj2 (ratio_failures_cases s (h ++ h) is_ bs e Hi Hb) He)
          as [[_ ?]|[[Hno _]|?]]; [by left|by destruct Hno|by right]
    end.
Qed.

End Pipeline.

(** ** The prompts *)

Section Prompts.

Variable strip : string → string.
Variable lower : string → string.
Variable upper : string → string.

(** X20: [_prompt_freq] answers "10-K" or "10-Q" and nothing else. It
    reads lines up to the first whose stripped, lowered text is one of the
    accepted spellings, which decides the answer, leaves the lines after it
    unread, and has written its prompt once per line read and its complaint
    once per line refused; when no line is accepted it has read them all
    and raises [EOFError]. *)
Theorem prompt_freq_reads_to_first_accepted (lines written : list string) :
  match _prompt_freq strip lower (mkConsole lines written) with
  | (Ok filing_type, c) =>
      ∃ refused line,
        lines = refused ++ line :: stdin c
        ∧ Forall (λ l, (lower (strip l) ∉ annual_spellings)
                       ∧ (lower (strip l) ∉ quarterly_spellings)) refused
        ∧ (lower (strip line) ∈ annual_spellings ∧ filing_type = "10-K"
           ∨ lower (strip line) ∈ quarterly_spellings ∧ filing_type = "10-Q")
        ∧ stdout c = written
                     ++ concat (replicate (length refused) [freq_prompt; freq_complaint])
                     ++ [freq_prompt]
  | (Raise e, c) =>
      e = EOFError
      ∧ Forall (λ l, (lower (strip l) ∉ annual_spellings)
                     ∧ (lower (strip l) ∉ quarterly_spellings)) lines
      ∧ stdin c = []
      ∧ stdout c = written
                   ++ concat (replicate (length lines) [freq_prompt; freq_complaint])
                   ++ [freq_prompt]
  end.
Proof.
  unfold _prompt_freq. simpl. revert written.
  induction lines as [|line lines IH]; intros written; simpl.
  { by split_and!. }
  case_bool_decide as Hk.
  { exists [], line. split_and!; [done|done|by left|done]. }
  case_bool_decide as Hq.
  { exists [], line. split_and!; [done|done|by right|done]. }
  specialize (IH (written ++ [freq_prompt; freq_complaint])).
  destruct (_prompt_freq_from strip lower lines _) as [[ft|e] c].
  - destruct IH as (refused & accepted & Hlines & Hrefused & Hft & Hout).
    exists (line :: refused), accepted. split_and!.
    + by rewrite Hlines.
    + by constructor.
    + done.
    + by rewrite Hout, <- app_assoc.
  - destruct IH as (He & Hrefused & Hin & Hout). split_and!; [done| |done|].
    + by constructor.
    + by rewrite Hout, <- app_assoc.
Qed.

(** X21: [_prompt_ticker] never answers the empty text. It reads lines up
    to the first whose stripped, uppercased text is not empty and answers
    that text, leaves the lines after it unread, and has written its
    prompt once per line read and its complaint once per line refused;
    when every line comes out empty it has read them all and raises
    [EOFError]. *)
Theorem prompt_ticker_reads_to_first_nonempty (lines written : list string) :
  match _prompt_ticker strip upper (mkConsole lines written) with
  | (Ok ticker, c) =>
      ticker ≠ EmptyString
      ∧ ∃ refused line,
          lines = refused ++ line :: stdin c
          ∧ Forall (λ l, upper (strip l) = EmptyString) refused
          ∧ ticker = upper (strip line)
          ∧ stdout c = written
                       ++ concat (replicate (length refused)
                                    [ticker_prompt; ticker_complaint])
                       ++ [ticker_prompt]
  | (Raise e, c) =>
      e = EOFError
      ∧ Forall (λ l, upper (strip l) = EmptyString) lines
      ∧ stdin c = []
      ∧ stdout c = written
                   ++ concat (replicate (length lines) [ticker_prompt; ticker_complaint])
                   ++ [ticker_prompt]
  end.
Proof.
  unfold _prompt_ticker. simpl. revert written.
  induction lines as [|line lines IH]; intros written; simpl.
  { by split_and!. }
  case_bool_decide as Hempty.
  - specialize (IH (written ++ [ticker_prompt; ticker_complaint])).
    destruct (_prompt_ticker_from strip upper lines _) as [[t|e] c].
    + destruct IH as (Ht & refused & accepted & Hlines & Hrefused & Heq & Hout).
      split; [done|]. exists (line :: refused), accepted. split_and!.
      * by rewrite Hlines.
      * by constructor.
      * done.
      * by rewrite Hout, <- app_assoc.
    + destruct IH as (He & Hrefused & Hin & Hout). split_and!; [done| |done|].
      * by constructor.
      * by rewrite Hout, <- app_assoc.
  - split; [done|]. exists [], line. by split_and!.
Qed.

End Prompts.

End Runtime.

(** ** The model at work *)

(** The end-to-end scenario of the specification: current ratios 2.0 and
    infinity, returns on assets 0.05 and 0.05, in the order of the periods. *)
Example end_to_end_scenario :
  (self ← __init__ nan_str_of_float 0 1 None None;
   cr ← calculate_current_ratio no_float_of_str nan_str_of_float self;
   roa ← calculate_return_on_assets no_float_of_str nan_str_of_float self;
   mret (periods self, cr, roa)) [quarterly_balance_sheet; quarterly_income_stmt]
  = (Ok (["2023Q1"; "2023Q2"],
         [mkRatioResult "Current Ratio" "2023Q1" 2;
          mkRatioResult "Current Ratio" "2023Q2" infinity],
         [mkRatioResult "Return on Assets" "2023Q1" 0x1.999999999999ap-5;
          mkRatioResult "Return on Assets" "2023Q2" 0x1.999999999999ap-5]),
     [quarterly_balance_sheet; quarterly_income_stmt;
      keyed_balance_sheet; keyed_income_stmt]).
Proof. by vm_compute. Qed.

(** C1, at the second quarter of the scenario, whose current liabilities
    are 0. *)
Lemma zero_denominator_witness :
  let r := mkRatioResult "Current Ratio" "2023Q2" infinity in
  current_ratio_turn no_float_of_str nan_str_of_float keyed_balance_sheet "2023Q2"
    = Ok (Some r)
  ∧ match (calculate_current_ratio no_float_of_str nan_str_of_float
             (analyzer_over ["2023Q1"; "2023Q2"])
             [keyed_balance_sheet; keyed_income_stmt]).1 with
    | Ok rs => r ∈ rs
    | Raise e =>
        ∃ q, q ∈ ["2023Q1"; "2023Q2"] ∧ q ≠ "2023Q2"
             ∧ current_ratio_turn no_float_of_str nan_str_of_float
                 keyed_balance_sheet q = Raise e
    end.
Proof.
  apply (proj1 (zero_denominator_is_infinity no_float_of_str nan_str_of_float)
           (analyzer_over ["2023Q1"; "2023Q2"])
           [keyed_balance_sheet; keyed_income_stmt]
           keyed_balance_sheet "2023Q2" (Row [PInt 150; PInt 0; PInt 900])
           150%float 0%float).
  - reflexivity.
  - right; left.
  - reflexivity.
  - reflexivity.
  - reflexivity.
  - reflexivity.
Defined.

(** C1, as stated, fails: with a denominator of zero, a numerator that is
    a text leaves the period without result in both operations, and a
    numerator that is the [int] 10**400 makes the current ratio raise. *)
Lemma zero_denominator_needs_numerator :
  loc unreported_balance_sheet "2023" = Ok (Row [PStr "n/a"; PInt 0; PInt 0])
  ∧ py_float no_float_of_str (PInt 0) = Ok 0%float
  ∧ calculate_current_ratio no_float_of_str nan_str_of_float (analyzer_over ["2023"])
      [unreported_balance_sheet; unreported_income_stmt]
    = (Ok [], [unreported_balance_sheet; unreported_income_stmt])
  ∧ calculate_return_on_assets no_float_of_str nan_str_of_float (analyzer_over ["2023"])
      [unreported_balance_sheet; unreported_income_stmt]
    = (Ok [], [unreported_balance_sheet; unreported_income_stmt])
  ∧ calculate_current_ratio no_float_of_str nan_str_of_float (analyzer_over ["2023"])
      [oversized_over_zero; unreported_income_stmt]
    = (Raise (OverflowError "int too large to convert to float"),
       [oversized_over_zero; unreported_income_stmt]).
Proof. split_and!; by vm_compute. Qed.

(** C2, as stated, fails: with [net_income] and [total_assets] both
    missing, the message of the return on assets names [net_income] only. *)
Lemma second_missing_column_unlisted :
  has_column income_stmt_without_income "net_income" = false
  ∧ has_column balance_sheet_without_total "total_assets" = false
  ∧ ∃ msg,
      calculate_return_on_assets no_float_of_str nan_str_of_float
        (analyzer_over ["2023"])
        [balance_sheet_without_total; income_stmt_without_income]
      = (Raise (ValueError msg),
         [balance_sheet_without_total; income_stmt_without_income])
      ∧ contains "total_assets" msg = false.
Proof.
  split_and!; [reflexivity..|].
  exists "income_stmt missing columns: ['net_income']". split; reflexivity.
Qed.

(** C2 (amended), on the same tables. *)
Lemma missing_columns_witness :
  calculate_return_on_assets no_float_of_str nan_str_of_float
    (analyzer_over ["2023"])
    [balance_sheet_without_total; income_stmt_without_income]
  = (Raise (ValueError "income_stmt missing columns: ['net_income']"),
     [balance_sheet_without_total; income_stmt_without_income]).
Proof.
  apply (missing_columns_fail_first no_float_of_str nan_str_of_float
           (analyzer_over ["2023"])
           [balance_sheet_without_total; income_stmt_without_income]
           income_stmt_without_income balance_sheet_without_total
           eq_refl eq_refl).
  reflexivity.
Defined.


(** C6, as stated, fails for [normalize_statement]: the failure of
    [get_dataframe] comes out although [to_pandas], next in its list,
    returns a table. *)
Lemma normalize_statement_propagates_failure :
  raises_when_invoked flaky_statement "get_dataframe"
  ∧ returns_table flaky_statement "to_pandas" keyed_income_stmt
  ∧ statement_methods = ["get_dataframe"; "to_pandas"; "to_dataframe"]
  ∧ normalize_statement flaky_statement
      = Raise (OtherError "RuntimeError" "not available").
Proof.
  split_and!; [|by eexists|reflexivity..].
  by eexists _, _.
Qed.

(** C6 (amended): [ensure_dataframe] on the same statement passes over the
    raising [to_frame] and returns the table of [to_pandas]. *)
Lemma isolated_failure_witness :
  ensure_dataframe flaky_statement "income_statement" = Ok keyed_income_stmt.
Proof.
  apply (proj2 (ensure_dataframe_isolates_failure flaky_statement "income_statement")
           "to_frame" "to_pandas" ["to_frame"; "to_dataframe"; "to_df"]
           ["as_dataframe"; "as_df"; "as_pandas"] keyed_income_stmt).
  - reflexivity.
  - left.
  - eexists _, _. split; reflexivity.
  - repeat constructor.
  - eexists. split; reflexivity.
Defined.

(** C7, as stated, fails: the message of [normalize_statement] carries the
    type alone, and the message of [ensure_dataframe] on [None] carries the
    label alone. *)
Lemma failure_message_without_advice :
  normalize_statement bare_statement
    = Raise (TypeError
        "Unexpected statement type: <class 'edgar.xbrl.statements.Statement'>")
  ∧ contains "Inspect"
      "Unexpected statement type: <class 'edgar.xbrl.statements.Statement'>" = false
  ∧ ensure_dataframe ONone "balance_sheet" = Raise (TypeError "balance_sheet is None")
  ∧ contains (type_repr ONone) "balance_sheet is None" = false
  ∧ contains "Inspect" "balance_sheet is None" = false.
Proof. split_and!; reflexivity. Qed.

(** C7 (amended), on an object with nothing to coerce from. *)
Lemma total_failure_witness :
  ensure_dataframe bare_statement "balance_sheet"
    = Raise (TypeError (diagnostic "balance_sheet" bare_statement))
  ∧ contains (type_repr bare_statement) (diagnostic "balance_sheet" bare_statement) = true
  ∧ contains "Inspect with: print(type(" (diagnostic "balance_sheet" bare_statement) = true
  ∧ contains "balance_sheet" (diagnostic "balance_sheet" bare_statement) = true.
Proof.
  apply (ensure_dataframe_total_failure bare_statement "balance_sheet").
  - discriminate.
  - discriminate.
  - repeat constructor.
  - repeat constructor.
  - exact I.
  - exact I.
Defined.

(** C8, on a table with a column labelled [to_pandas]: [ensure_dataframe]
    returns it, [normalize_statement] raises. *)
Lemma refused_table_witness :
  (∀ name, ensure_dataframe (ODataFrame export_flags) name = Ok export_flags)
  ∧ ∃ cls, (cls = "Series" ∨ cls = "DataFrame")
           ∧ normalize_statement (ODataFrame export_flags)
             = Raise (TypeError ("'" +:+ cls +:+ "' object is not callable")).
Proof.
  apply (normalize_statement_refuses_tables export_flags "to_pandas").
  - right; left.
  - right; left.
Defined.

Example refused_table_message :
  normalize_statement (ODataFrame export_flags)
  = Raise (TypeError "'Series' object is not callable").
Proof. reflexivity. Qed.

(** C9, on the tables of the scenario: after the constructor promoted the
    period of its copies, the caller's tables still have their period
    column. *)
Lemma caller_frames_witness :
  (__init__ nan_str_of_float 0 1 None None
     [quarterly_balance_sheet; quarterly_income_stmt]).2 !! 0
    = Some quarterly_balance_sheet
  ∧ (__init__ nan_str_of_float 0 1 None None
     [quarterly_balance_sheet; quarterly_income_stmt]).2 !! 1
    = Some quarterly_income_stmt.
Proof.
  split.
  - apply (proj1 (caller_frames_never_mutated no_float_of_str nan_str_of_float 0 1 None None
                    [quarterly_balance_sheet; quarterly_income_stmt])).
    reflexivity.
  - apply (proj1 (caller_frames_never_mutated no_float_of_str nan_str_of_float 0 1 None None
                    [quarterly_balance_sheet; quarterly_income_stmt])).
    reflexivity.
Defined.

(** ** The further properties at work *)

(** The prompts on ASCII text: two lines refused, the third accepted, the
    fourth left unread. *)
Example prompt_freq_session :
  _prompt_freq ascii_strip ascii_lower (mkConsole ["maybe"; "10"; "  Q "; "k"] [])
  = (Ok "10-Q",
     mkConsole ["k"]
       [freq_prompt; freq_complaint; freq_prompt; freq_complaint; freq_prompt]).
Proof. reflexivity. Qed.

Example prompt_ticker_session :
  _prompt_ticker ascii_strip ascii_upper (mkConsole ["   "; " aapl "; "msft"] [])
  = (Ok "AAPL", mkConsole ["msft"] [ticker_prompt; ticker_complaint; ticker_prompt]).
Proof. reflexivity. Qed.

(** X1, on an object whose [df] holds a table. *)
Lemma from_attribute_witness :
  ensure_dataframe wrapper_with_table "income_statement" = Ok keyed_income_stmt.
Proof.
  apply (ensure_dataframe_from_attribute wrapper_with_table "income_statement" "df"
           [] ["data"; "dataframe"; "table"; "rows"; "items"; "statements"]).
  - repeat constructor.
  - reflexivity.
  - constructor.
  - left. reflexivity.
Defined.

(** X2, on an object whose [data] holds a dict of scalars. *)
Lemma attribute_failure_witness :
  ensure_dataframe wrapper_with_scalars "income_statement" = Raise scalars_rejected.
Proof.
  apply (ensure_dataframe_attribute_failure wrapper_with_scalars "income_statement"
           "data" ["df"] ["dataframe"; "table"; "rows"; "items"; "statements"] PyDict).
  - repeat constructor.
  - reflexivity.
  - repeat constructor.
  - reflexivity.
Defined.

(** X3, on an object with a field bag only. *)
Lemma last_resort_witness :
  ensure_dataframe plain_record "income_statement" = Ok keyed_income_stmt.
Proof.
  apply (proj2 (ensure_dataframe_last_resorts "income_statement")
           "Record" [] None (Some (Ok keyed_income_stmt))).
  - repeat constructor.
  - repeat constructor.
Defined.

(** X4, on a statement whose [to_pandas] returns [None]. *)
Lemma first_method_witness :
  normalize_statement hollow_statement = Ok ONone.
Proof.
  apply (normalize_statement_first_method hollow_statement (value_method ONone)
           "to_pandas" ["get_dataframe"] ["to_dataframe"]).
  - reflexivity.
  - reflexivity.
  - repeat constructor.
  - reflexivity.
Defined.

(** X5, on a function that returns a function. *)
Lemma calls_once_witness :
  normalize_statement function_of_function
  = Raise (TypeError "Unexpected statement type: <class 'function'>").
Proof.
  apply (proj2 (proj2 (proj2 (normalize_statement_calls_once "function" [] None)))
           "function" [] (Ok ONone) None).
  repeat constructor.
Defined.

(** X6, X8, X9 on the balance sheet of the scenario. *)
Lemma normalize_shape_witness :
  keyed_by_text keyed_balance_sheet
  ∧ columns keyed_balance_sheet
    = filter (λ c, c ≠ "period") (columns quarterly_balance_sheet)
  ∧ has_column keyed_balance_sheet "period" = false
  ∧ length (body keyed_balance_sheet) = length (body quarterly_balance_sheet).
Proof.
  apply (normalize_shape nan_str_of_float quarterly_balance_sheet). reflexivity.
Defined.

Lemma normalize_idempotent_witness :
  _normalize nan_str_of_float keyed_balance_sheet = Ok keyed_balance_sheet.
Proof.
  apply (normalize_idempotent nan_str_of_float quarterly_balance_sheet). reflexivity.
Defined.

Lemma normalize_lookup_witness :
  columns keyed_balance_sheet = delete 0 (columns quarterly_balance_sheet)
  ∧ Forall (λ k, ∃ s, k = PStr s) (index keyed_balance_sheet)
  ∧ loc keyed_balance_sheet "2023Q2" = Ok (Row [PInt 150; PInt 0; PInt 900]).
Proof.
  apply (normalize_lookup_period nan_str_of_float quarterly_balance_sheet
           keyed_balance_sheet 0 1 (PInt 1)
           [PStr "2023Q2"; PInt 150; PInt 0; PInt 900] (PStr "2023Q2")).
  - reflexivity.
  - apply (bool_decide_unpack _). by vm_compute.
  - reflexivity.
  - reflexivity.
  - reflexivity.
Defined.

(** X10, on a balance sheet with a period restated. *)
Lemma repeated_periods_witness :
  ∃ sub, loc restated_keyed_balance_sheet "2023" = Ok (Rows sub) ∧ 2 ≤ length sub.
Proof.
  apply (normalize_keeps_repeated_periods nan_str_of_float restated_balance_sheet
           restated_keyed_balance_sheet 0 0 1
           (PInt 0) [PStr "2023"; PInt 200; PInt 100; PInt 1000] (PStr "2023")
           (PInt 1) [PStr "2023"; PInt 210; PInt 100; PInt 1010] (PStr "2023")).
  - reflexivity.
  - discriminate.
  - reflexivity.
  - reflexivity.
  - reflexivity.
  - reflexivity.
  - reflexivity.
  - reflexivity.
Defined.

(** X11, on the yearly tables as the constructor leaves them. *)
Lemma ratio_failures_witness :
  (missing_columns yearly_promoted_balance_sheet
     ["current_assets"; "current_liabilities"] ≠ []
   ∧ ∃ msg, KeyError "'2023'" = ValueError msg)
  ∨ (¬ keyed_by_text yearly_promoted_balance_sheet
     ∧ ∃ p, p ∈ ["2023"]
            ∧ in_index nan_str_of_float p yearly_promoted_balance_sheet = true
            ∧ KeyError "'2023'" = KeyError (repr_str p))
  ∨ ∃ msg, KeyError "'2023'" = OverflowError msg.
Proof.
  apply (proj1 (ratio_failures no_float_of_str nan_str_of_float
                  (analyzer_over ["2023"])
                  [yearly_promoted_balance_sheet; yearly_promoted_income_stmt]
                  yearly_promoted_income_stmt yearly_promoted_balance_sheet
                  (KeyError "'2023'") eq_refl eq_refl)).
  reflexivity.
Defined.

(** X12, at the first quarter of the scenario. *)
Lemma quotient_witness :
  let r := mkRatioResult "Current Ratio" "2023Q1" 2 in
  current_ratio_turn no_float_of_str nan_str_of_float keyed_balance_sheet "2023Q1"
    = Ok (Some r)
  ∧ r ∈ [mkRatioResult "Current Ratio" "2023Q1" 2;
         mkRatioResult "Current Ratio" "2023Q2" infinity].
Proof.
  apply (proj1 (nonzero_denominator_is_quotient no_float_of_str nan_str_of_float)
           (analyzer_over ["2023Q1"; "2023Q2"])
           [keyed_balance_sheet; keyed_income_stmt]
           keyed_balance_sheet "2023Q1" (Row [PInt 200; PInt 100; PInt 1000])
           200%float 100%float).
  - reflexivity.
  - left.
  - reflexivity.
  - reflexivity.
  - reflexivity.
  - reflexivity.
  - reflexivity.
Defined.

(** X13, on the balance sheet with a period restated. *)
Lemma repeated_key_witness :
  current_ratio_turn no_float_of_str nan_str_of_float
    restated_keyed_balance_sheet "2023" = Ok None.
Proof.
  apply (repeated_key_is_skipped no_float_of_str nan_str_of_float
           restated_keyed_balance_sheet "2023" 0 1
           [PInt 200; PInt 100; PInt 1000] [PInt 210; PInt 100; PInt 1010]).
  - repeat constructor.
  - discriminate.
  - reflexivity.
  - reflexivity.
Defined.

(** X14, on the results of the scenario. *)
Lemma results_sound_witness :
  "2023Q2" ∈ ["2023Q1"; "2023Q2"]
  ∧ ∃ row a d,
      loc keyed_balance_sheet "2023Q2" = Ok row
      ∧ getitem (columns keyed_balance_sheet) row "current_assets"
          ≫= float_of_item no_float_of_str = Ok a
      ∧ getitem (columns keyed_balance_sheet) row "current_liabilities"
          ≫= float_of_item no_float_of_str = Ok d
      ∧ mkRatioResult "Current Ratio" "2023Q2" infinity
        = {| name := "Current Ratio"; period := "2023Q2";
             result := if (d =? 0)%float then infinity else (a / d)%float |}.
Proof.
  apply (proj1 (results_are_sound no_float_of_str nan_str_of_float
                  (analyzer_over ["2023Q1"; "2023Q2"])
                  [keyed_balance_sheet; keyed_income_stmt]
                  keyed_income_stmt keyed_balance_sheet eq_refl eq_refl)
           [mkRatioResult "Current Ratio" "2023Q1" 2;
            mkRatioResult "Current Ratio" "2023Q2" infinity]
           (mkRatioResult "Current Ratio" "2023Q2" infinity)).
  - reflexivity.
  - right; left.
Defined.

(** X15 and X16, on the tables of the scenario. *)
Lemma init_frames_witness :
  ∃ bsf isf cff,
    promoted quarterly_balance_sheet = Ok bsf
    ∧ promoted quarterly_income_stmt = Ok isf
    ∧ cff = []
    ∧ 2 = 2 ∧ 3 = 3 ∧ (None : option nat) = None
    ∧ [quarterly_balance_sheet; quarterly_income_stmt;
       keyed_balance_sheet; keyed_income_stmt]
      = [quarterly_balance_sheet; quarterly_income_stmt] ++ bsf :: isf :: cff.
Proof.
  apply (init_frames nan_str_of_float 0 1 None None
           [quarterly_balance_sheet; quarterly_income_stmt]
           [quarterly_balance_sheet; quarterly_income_stmt;
            keyed_balance_sheet; keyed_income_stmt]
           {| balance_sheet := 2; income_stmt := 3; cash_flow := None;
              periods := ["2023Q1"; "2023Q2"] |}
           quarterly_balance_sheet quarterly_income_stmt).
  - reflexivity.
  - reflexivity.
  - discriminate.
  - by vm_compute.
Defined.

Lemma init_returns_witness :
  ∃ self h',
    __init__ nan_str_of_float 0 1 None None
      [quarterly_balance_sheet; quarterly_income_stmt] = (Ok self, h').
Proof.
  apply (init_returns_iff nan_str_of_float 0 1 None None
           [quarterly_balance_sheet; quarterly_income_stmt]
           quarterly_balance_sheet quarterly_income_stmt).
  - reflexivity.
  - reflexivity.
  - discriminate.
  - split_and!.
    + unfold one_period_column. simpl. lia.
    + unfold one_period_column. simpl. lia.
    + discriminate.
Defined.

(** X17, X18 and X19, on the sample provider. *)
Lemma pipeline_witness :
  let h := [keyed_balance_sheet; keyed_income_stmt] in
  ∃ self,
    __init__ nan_str_of_float 0 1 None None h = (Ok self, h ++ h)
    ∧ (∀ e, (calculate_current_ratio no_float_of_str nan_str_of_float self (h ++ h)).1
            = Raise e →
            (∃ msg, e = ValueError msg) ∨ (∃ msg, e = OverflowError msg))
    ∧ (∀ e, (calculate_return_on_assets no_float_of_str nan_str_of_float self (h ++ h)).1
            = Raise e →
            (∃ msg, e = ValueError msg) ∨ (∃ msg, e = OverflowError msg)).
Proof.
  apply (fetched_tables_suit_the_analyzer no_float_of_str nan_str_of_float
           sample_latest "AAPL" "10-K" true
           keyed_balance_sheet keyed_income_stmt None None).
  reflexivity.
Defined.

Lemma fetched_tables_witness :
  (∃ filing, sample_latest "AAPL" "10-K" = Ok filing ∧ filing ≠ ONone)
  ∧ keyed_by_text keyed_balance_sheet
  ∧ has_column keyed_balance_sheet "period" = false
  ∧ keyed_by_text keyed_income_stmt
  ∧ has_column keyed_income_stmt "period" = false
  ∧ True.
Proof.
  apply (fetched_tables_are_keyed nan_str_of_float sample_latest "AAPL" "10-K" true
           keyed_balance_sheet keyed_income_stmt None).
  reflexivity.
Defined.

Lemma cash_flow_degrades_witness :
  fetch_and_prepare_statements nan_str_of_float sample_latest "AAPL" "10-K" true
  = Ok (keyed_balance_sheet, keyed_income_stmt, None).
Proof.
  rewrite (proj1 (cash_flow_degrades nan_str_of_float sample_latest "AAPL" "10-K" true
                    sample_filing sample_xbrl sample_statements
                    (ODataFrame quarterly_balance_sheet)
                    (ODataFrame quarterly_income_stmt)
                    (AttributeError sample_statements "cashflow_statement")
                    eq_refl ltac:(discriminate) eq_refl eq_refl eq_refl eq_refl eq_refl)).
  - reflexivity.
  - left. reflexivity.
Defined.
